(** * Kanban task board: persistence service, drag state and board controller

    A shallow embedding of the TypeScript sources

    - [utils/storage.ts]            (class [StorageService]),
    - [components/kanban-column.tsx] ([KanbanColumn], [TaskForm], [KanbanBoard]),
    - [types/task.ts]               ([Task], [TaskStatus]),

    followed by the properties of the specification that concern them.

    JavaScript values are an inductive type, [localStorage] is a finite map
    from keys to strings held in an explicit world, and code that can throw
    lives in a small state-and-exception monad in which the world survives a
    throw, as it does in JavaScript.  The built-ins [JSON.parse],
    [JSON.stringify] and [Date.parse] belong to the host and are taken as
    an interface ([Host]); a sample host is given for running the code on
    concrete documents.  Calls to [console] only write diagnostics and are
    left out. *)

From Stdlib Require Import String Ascii ZArith List Lia Bool.
From stdpp Require Import gmap strings list fin_maps pretty.

Set Warnings "-register-all".
Import ListNotations.

Local Open Scope string_scope.
Local Open Scope list_scope.

(** ** JavaScript values *)

Module JS.

(** The values that the code reads back from JSON text, plus [undefined],
    which is what reading a missing property yields.  Numbers are carried
    as integers: the code never computes with a number it has parsed. *)
Inductive value : Type :=
| VUndefined
| VNull
| VBool (b : bool)
| VNum (n : Z)
| VStr (s : string)
| VArr (elems : list value)
| VObj (props : list (string * value)).

(** [typeof v] *)
Definition typeof (v : value) : string :=
  match v with
  | VUndefined => "undefined"
  | VNull => "object"
  | VBool _ => "boolean"
  | VNum _ => "number"
  | VStr _ => "string"
  | VArr _ => "object"
  | VObj _ => "object"
  end.

(** Truthiness, as used by [!v], [v && ...] and [if (v)]. *)
Definition truthy (v : value) : bool :=
  match v with
  | VUndefined => false
  | VNull => false
  | VBool b => b
  | VNum n => negb (n =? 0)%Z
  | VStr s => negb (String.eqb s EmptyString)
  | VArr _ => true
  | VObj _ => true
  end.

(** [Array.isArray(v)] *)
Definition isArray (v : value) : bool :=
  match v with
  | VArr _ => true
  | _ => false
  end.

(** First binding of [k] in the property list of an object. *)
Fixpoint lookup_prop (k : string) (props : list (string * value)) : value :=
  match props with
  | [] => VUndefined
  | (k', v) :: rest => if String.eqb k' k then v else lookup_prop k rest
  end.

(** [v.k] for a [v] that is neither [null] nor [undefined].  Only the names
    [tasks], [id], [title], [description], [status] and [createdAt] are read
    by the code, and no prototype defines them, so every value but an
    object yields [undefined]. *)
Definition prop (v : value) (k : string) : value :=
  match v with
  | VObj props => lookup_prop k props
  | _ => VUndefined
  end.

(** [a === b] where [b] is a string. *)
Definition strict_eq_string (a : value) (b : string) : bool :=
  match a with
  | VStr s => String.eqb s b
  | _ => false
  end.

(** [arr.includes(v)] for an array literal of strings. *)
Definition includes (arr : list string) (v : value) : bool :=
  existsb (strict_eq_string v) arr.

(** [isNaN(x)] where [x] is the result of [Date.parse]: [None] stands for
    [NaN]. *)
Definition isNaN (x : option Z) : bool :=
  match x with
  | None => true
  | Some _ => false
  end.

(** Thrown values, by the name of their class. *)
Inductive Exn : Type :=
| SyntaxError
| TypeError
| ReferenceError
| SecurityError
| QuotaExceededError.

End JS.
Export JS.

(** ** The host: built-ins that the sources call but do not define *)

Class Host : Type := {
  (** [JSON.parse(text)]; [None] when it throws a [SyntaxError]. *)
  JSON_parse : string -> option value;
  (** [JSON.stringify(v)] for a [v] that has a JSON text. *)
  JSON_stringify : value -> string;
  (** [Date.parse(text)]; [None] is [NaN]. *)
  Date_parse : string -> option Z
}.

(** ** The world: the browser's [window] and its [localStorage] *)

Module World.

(** A page rendered on the server has no [window].  In a browser, access to
    [localStorage] may be refused altogether ([Blocked]); otherwise it is a
    map from keys to strings with room for [quota] characters, keys
    included. *)
Inductive World : Type :=
| NoWindow
| Blocked
| Live (quota : N) (items : gmap string string).

Definition usage (items : gmap string string) : N :=
  map_fold
    (fun k v acc => (N.of_nat (String.length k) + N.of_nat (String.length v) + acc)%N)
    0%N items.

(** How a statement ends. *)
Inductive Completion (A : Type) : Type :=
| Normal (a : A)
| Throw (e : Exn).
Arguments Normal {A} a.
Arguments Throw {A} e.

(** Computations over the world that may throw.  The world reached before
    the throw is kept. *)
Definition Eff (A : Type) : Type := World -> World * Completion A.

Definition ret {A} (a : A) : Eff A := fun w => (w, Normal a).

Definition throw {A} (e : Exn) : Eff A := fun w => (w, Throw e).

Definition bind {A B} (m : Eff A) (k : A -> Eff B) : Eff B :=
  fun w =>
    match m w with
    | (w', Normal a) => k a w'
    | (w', Throw e) => (w', Throw e)
    end.

(** [try { body } catch (error) { handler(error) }] *)
Definition try_catch {A} (body : Eff A) (handler : Exn -> Eff A) : Eff A :=
  fun w =>
    match body w with
    | (w', Normal a) => (w', Normal a)
    | (w', Throw e) => handler e w'
    end.

Definition exec {A} (m : Eff A) (w : World) : World := fst (m w).
Definition result {A} (m : Eff A) (w : World) : Completion A := snd (m w).

(** [typeof window === "undefined"] *)
Definition window_undefined : Eff bool :=
  fun w =>
    match w with
    | NoWindow => (w, Normal true)
    | _ => (w, Normal false)
    end.

(** [localStorage.getItem(k)]; [None] is [null]. *)
Definition getItem (k : string) : Eff (option string) :=
  fun w =>
    match w with
    | NoWindow => (w, Throw ReferenceError)
    | Blocked => (w, Throw SecurityError)
    | Live _ items => (w, Normal (items !! k))
    end.

(** [localStorage.setItem(k, v)] *)
Definition setItem (k v : string) : Eff unit :=
  fun w =>
    match w with
    | NoWindow => (w, Throw ReferenceError)
    | Blocked => (w, Throw SecurityError)
    | Live quota items =>
        let items' := <[k := v]> items in
        if (usage items' <=? quota)%N
        then (Live quota items', Normal tt)
        else (w, Throw QuotaExceededError)
    end.

(** [localStorage.removeItem(k)] *)
Definition removeItem (k : string) : Eff unit :=
  fun w =>
    match w with
    | NoWindow => (w, Throw ReferenceError)
    | Blocked => (w, Throw SecurityError)
    | Live quota items => (Live quota (delete k items), Normal tt)
    end.

End World.
Export World.

Declare Scope eff_scope.
Delimit Scope eff_scope with eff.
Notation "x <- m ;; k" := (bind m (fun x => k))
  (at level 100, m at next level, right associativity) : eff_scope.
Notation "m ;;; k" := (bind m (fun _ => k))
  (at level 100, right associativity) : eff_scope.

(** ** [utils/storage.ts] *)

Module StorageService.
Section WithHost.
Context `{Host}.
Local Open Scope eff_scope.

Definition STORAGE_KEY : string := "kanban-tasks".
Definition STORAGE_VERSION : string := "1.0".
Definition VERSION_KEY : string := "kanban-version".

(** [JSON.parse] as a statement: a text that does not parse throws. *)
Definition JSON_parse_stmt (text : string) : Eff value :=
  match JSON_parse text with
  | Some v => ret v
  | None => throw SyntaxError
  end.

(** [!isNaN(Date.parse(v))], reached only when [v] is a string. *)
Definition date_parses (v : value) : bool :=
  match v with
  | VStr s => negb (isNaN (Date_parse s))
  | _ => false
  end.

(** Validate task object structure. *)
Definition isValidTask (task : value) : bool :=
  truthy task &&
  String.eqb (typeof task) "object" &&
  String.eqb (typeof (prop task "id")) "string" &&
  String.eqb (typeof (prop task "title")) "string" &&
  String.eqb (typeof (prop task "description")) "string" &&
  String.eqb (typeof (prop task "status")) "string" &&
  includes ["todo"; "in-progress"; "done"] (prop task "status") &&
  String.eqb (typeof (prop task "createdAt")) "string" &&
  date_parses (prop task "createdAt").

(** The validity predicate in the words of the specification: an object
    whose [id], [title] and [description] are strings, whose [status] is one
    of the three status strings, and whose [createdAt] is a string that
    parses as a date. *)
Definition valid_per_spec (task : value) : Prop :=
  exists props i t d s c,
    task = VObj props
    /\ lookup_prop "id" props = VStr i
    /\ lookup_prop "title" props = VStr t
    /\ lookup_prop "description" props = VStr d
    /\ lookup_prop "status" props = VStr s
    /\ (s = "todo" \/ s = "in-progress" \/ s = "done")
    /\ lookup_prop "createdAt" props = VStr c
    /\ Date_parse c <> None.

(** Clear all tasks from localStorage. *)
Definition clearTasks : Eff unit :=
  try_catch
    (nw <- window_undefined ;;
     if nw then ret tt
     else
       removeItem STORAGE_KEY ;;;
       removeItem VERSION_KEY)
    (fun _ => ret tt).

(** Save tasks to localStorage with version tracking.  The handler only
    logs, and logs once more when the error is a quota error. *)
Definition saveTasks (tasks : list value) : Eff unit :=
  try_catch
    (nw <- window_undefined ;;
     if nw then ret tt
     else
       let validTasks := List.filter isValidTask tasks in
       setItem STORAGE_KEY (JSON_stringify (VArr validTasks)) ;;;
       setItem VERSION_KEY STORAGE_VERSION)
    (fun _ => ret tt).

(** The items of the store after a save in which both writes succeed. *)
Definition saved (tasks : list value) (items : gmap string string)
  : gmap string string :=
  <[VERSION_KEY := STORAGE_VERSION]>
    (<[STORAGE_KEY := JSON_stringify (VArr (List.filter isValidTask tasks))]> items).

(** [version && version !== this.STORAGE_VERSION] *)
Definition version_mismatch (version : option string) : bool :=
  match version with
  | None => false
  | Some v => negb (String.eqb v EmptyString) && negb (String.eqb v STORAGE_VERSION)
  end.

(** [!stored] *)
Definition not_stored (stored : option string) : bool :=
  match stored with
  | None => true
  | Some s => String.eqb s EmptyString
  end.

(** The string that [stored] is once [!stored] has failed. *)
Definition text_of (stored : option string) : string :=
  match stored with
  | Some text => text
  | None => EmptyString
  end.

(** Retrieve tasks from localStorage with data validation. *)
Definition getTasks : Eff (list value) :=
  try_catch
    (nw <- window_undefined ;;
     if nw then ret []
     else
       version <- getItem VERSION_KEY ;;
       if version_mismatch version then
         clearTasks ;;; ret []
       else
         stored <- getItem STORAGE_KEY ;;
         if not_stored stored then ret []
         else
           parsed <- JSON_parse_stmt (text_of stored) ;;
           match parsed with
           | VArr elems =>
               let validTasks := List.filter isValidTask elems in
               (if negb (Nat.eqb (length validTasks) (length elems))
                then saveTasks validTasks
                else ret tt) ;;;
               ret validTasks
           | _ => clearTasks ;;; ret []
           end)
    (fun _ => clearTasks ;;; ret []).

(** Check if localStorage is available. *)
Definition isStorageAvailable : Eff bool :=
  try_catch
    (nw <- window_undefined ;;
     if nw then ret false
     else
       let test := "__storage_test__" in
       setItem test test ;;;
       removeItem test ;;;
       ret true)
    (fun _ => ret false).

(** The object returned by [importTasks]. *)
Record ImportResult : Type := {
  success : bool;
  message : string;
  tasksImported : nat
}.

(** [data.tasks]: reading a property of [null] or [undefined] throws. *)
Definition member (v : value) (k : string) : Eff value :=
  match v with
  | VUndefined | VNull => throw TypeError
  | _ => ret (prop v k)
  end.

(** The elements of an array (of anything else, none). *)
Definition elements_of (v : value) : list value :=
  match v with
  | VArr elems => elems
  | _ => []
  end.

(** [new Set(ids).has(v)]: a [Set] compares with SameValueZero, which on
    primitives is equality and on arrays and objects is identity; two
    values parsed from text never share an identity. *)
Definition same_value_zero (a b : value) : bool :=
  match a, b with
  | VUndefined, VUndefined => true
  | VNull, VNull => true
  | VBool x, VBool y => Bool.eqb x y
  | VNum x, VNum y => (x =? y)%Z
  | VStr x, VStr y => String.eqb x y
  | _, _ => false
  end.

Definition Set_has (ids : list value) (v : value) : bool :=
  existsb (same_value_zero v) ids.

(** Import tasks from JSON backup. *)
Definition importTasks (jsonData : string) : Eff ImportResult :=
  try_catch
    (data <- JSON_parse_stmt jsonData ;;
     tasks <- member data "tasks" ;;
     if negb (truthy tasks) || negb (isArray tasks) then
       ret {| success := false; message := "Invalid backup format"; tasksImported := 0 |}
     else
       let validTasks := List.filter isValidTask (elements_of tasks) in
       if Nat.eqb (length validTasks) 0 then
         ret {| success := false; message := "No valid tasks found in backup";
                tasksImported := 0 |}
       else
         existingTasks <- getTasks ;;
         let existingIds := List.map (fun task => prop task "id") existingTasks in
         let newTasks :=
           List.filter (fun task => negb (Set_has existingIds (prop task "id"))) validTasks in
         let mergedTasks := existingTasks ++ newTasks in
         saveTasks mergedTasks ;;;
         ret {| success := true;
                message := "Successfully imported " +:+ pretty (length newTasks) +:+ " tasks";
                tasksImported := length newTasks |})
    (fun _ =>
       ret {| success := false; message := "Failed to parse backup file";
              tasksImported := 0 |}).

(** The tasks of a backup that [importTasks] appends to [existing]. *)
Definition appended (existing imported : list value) : list value :=
  List.filter
    (fun task =>
       negb (Set_has (List.map (fun task => prop task "id") existing) (prop task "id")))
    (List.filter isValidTask imported).

Definition imported_ok (n : nat) : ImportResult :=
  {| success := true;
     message := "Successfully imported " +:+ pretty n +:+ " tasks";
     tasksImported := n |}.

Definition import_failed (reason : string) : ImportResult :=
  {| success := false; message := reason; tasksImported := 0 |}.

(** [tasks.filter(p)] for a callback that may throw. *)
Fixpoint filter_eff {A} (p : A -> Eff bool) (l : list A) : Eff (list A) :=
  match l with
  | [] => ret []
  | a :: rest =>
      keep <- p a ;;
      kept <- filter_eff p rest ;;
      ret (if keep then a :: kept else kept)
  end.

(** The callback [(task) => task.status === s]. *)
Definition status_is (s : string) (task : value) : Eff bool :=
  st <- member task "status" ;;
  ret (strict_eq_string st s).

(** The object returned by [getTaskStats]. *)
Record TaskStats : Type := {
  todo : nat;
  inProgress : nat;
  done : nat;
  total : nat
}.

(** Get task count by status. *)
Definition getTaskStats : Eff TaskStats :=
  tasks <- getTasks ;;
  todoTasks <- filter_eff (status_is "todo") tasks ;;
  inProgressTasks <- filter_eff (status_is "in-progress") tasks ;;
  doneTasks <- filter_eff (status_is "done") tasks ;;
  ret {| todo := length todoTasks;
         inProgress := length inProgressTasks;
         done := length doneTasks;
         total := length tasks |}.

(** The object that [exportTasks] writes. *)
Definition export_document (exportDate : string) (tasks : list value) : value :=
  VObj [("version", VStr STORAGE_VERSION);
        ("exportDate", VStr exportDate);
        ("tasks", VArr tasks)].

(** Export tasks as JSON for backup.  [stringify_indented] is
    [JSON.stringify(v, null, 2)] and [exportDate] is
    [new Date().toISOString()]. *)
Definition exportTasks (stringify_indented : value -> string) (exportDate : string)
  : Eff string :=
  tasks <- getTasks ;;
  ret (stringify_indented (export_document exportDate tasks)).

(** What the store holds under a key, when there is a store to read. *)
Definition peek (k : string) (w : World) : option string :=
  match w with
  | Live _ items => items !! k
  | _ => None
  end.

(** The key that [isStorageAvailable] writes and removes. *)
Definition probe_key : string := "__storage_test__".

(** [w'] is [w] but for the two entries of the service: the same kind of
    world, the same quota, and the same string under every other key. *)
Definition differs_in_tasks_only (w w' : World) : Prop :=
  match w, w' with
  | NoWindow, NoWindow => True
  | Blocked, Blocked => True
  | Live quota items, Live quota' items' =>
      quota' = quota
      /\ forall k, k <> STORAGE_KEY -> k <> VERSION_KEY -> items' !! k = items !! k
  | _, _ => False
  end.

End WithHost.
End StorageService.

(** ** [types/task.ts] *)

Module Types.

Inductive TaskStatus : Type :=
| Todo
| InProgress
| Done.

(** The string that a status is in the source. *)
Definition status_string (s : TaskStatus) : string :=
  match s with
  | Todo => "todo"
  | InProgress => "in-progress"
  | Done => "done"
  end.

Definition status_eqb (a b : TaskStatus) : bool :=
  String.eqb (status_string a) (status_string b).

Record Task : Type := {
  id : string;
  title : string;
  description : string;
  status : TaskStatus;
  createdAt : string
}.

(** The object that a [Task] is at run time, and that [JSON.stringify]
    sees. *)
Definition to_value (t : Task) : value :=
  VObj [("id", VStr (id t));
        ("title", VStr (title t));
        ("description", VStr (description t));
        ("status", VStr (status_string (status t)));
        ("createdAt", VStr (createdAt t))].

(** Equality of statuses and of tasks can be decided. *)
Definition TaskStatus_eq_dec (a b : TaskStatus) : {a = b} + {a <> b}.
Proof. decide equality. Defined.

Definition Task_eq_dec (a b : Task) : {a = b} + {a <> b}.
Proof. decide equality; (apply TaskStatus_eq_dec || apply String.string_dec). Defined.

End Types.

(** ** [utils/drag-drop.ts] *)

Module DragDropService.
Import Types.

(** Get status from drop target.  [statusAttr] is what
    [element.getAttribute("data-status")] returns, [None] for [null]. *)
Definition getDropTargetStatus (statusAttr : option string) : option TaskStatus :=
  match statusAttr with
  | Some attr =>
      if String.eqb attr "todo" then Some Todo
      else if String.eqb attr "in-progress" then Some InProgress
      else if String.eqb attr "done" then Some Done
      else None
  | None => None
  end.

End DragDropService.

(** ** [components/kanban-column.tsx]: one column of the board *)

Module KanbanColumn.
Import Types.
Section WithHost.
Context `{Host}.

(** The state of the component: [isDragOver], [dragOverCounter], and what
    the handlers last did to the class [drag-over] of the column's element
    ([DragDropService.addDragOverEffect] sets the field,
    [removeDragOverEffect] clears it).  The element's [className] is computed
    from [isDragOver], so a render that follows a change of [isDragOver]
    writes the class attribute anew and drops a [drag-over] that a handler
    had added: the field tells where the class can be, not that it is still
    there once the component has rendered.  Nothing below relies on the
    class being present. *)
Record State : Type := {
  isDragOver : bool;
  dragOverCounter : Z;
  dragOverEffect : bool
}.

Definition initial : State :=
  {| isDragOver := false; dragOverCounter := 0; dragOverEffect := false |}.

(** Handle drag over event. *)
Definition handleDragOver (c : State) : State :=
  if negb (isDragOver c)
  then {| isDragOver := true;
          dragOverCounter := dragOverCounter c;
          dragOverEffect := dragOverEffect c |}
  else c.

(** Handle drag enter event with counter to prevent flickering. *)
Definition handleDragEnter (c : State) : State :=
  let counter := (dragOverCounter c + 1)%Z in
  if negb (isDragOver c)
  then {| isDragOver := true; dragOverCounter := counter; dragOverEffect := true |}
  else {| isDragOver := isDragOver c;
          dragOverCounter := counter;
          dragOverEffect := dragOverEffect c |}.

(** Handle drag leave event with counter. *)
Definition handleDragLeave (c : State) : State :=
  let newCounter := (dragOverCounter c - 1)%Z in
  if (newCounter <=? 0)%Z
  then {| isDragOver := false; dragOverCounter := 0; dragOverEffect := false |}
  else {| isDragOver := isDragOver c;
          dragOverCounter := newCounter;
          dragOverEffect := dragOverEffect c |}.

(** [!!s] for a string. *)
Definition nonempty (s : string) : bool := negb (String.eqb s EmptyString).

(** The body of the [try] in [handleDrop], up to the test
    [task.status !== status]: the parse may throw, and so may reading
    [status] off [null]. *)
Definition moved_to_other_column (taskData : string) (status : TaskStatus)
  : Completion bool :=
  match JSON_parse taskData with
  | None => Throw SyntaxError
  | Some VUndefined | Some VNull => Throw TypeError
  | Some task =>
      Normal (negb (strict_eq_string (prop task "status") (status_string status)))
  end.

(** Handle drop event.  [taskId] and [taskData] are what the event's
    [dataTransfer] holds under [text/plain] and [application/json], the
    empty string when it holds nothing.  Returns the new state and the calls
    made to [onDrop], in order. *)
Definition handleDrop (status : TaskStatus) (taskId taskData : string) (c : State)
  : State * list TaskStatus :=
  let c' := {| isDragOver := false; dragOverCounter := 0; dragOverEffect := false |} in
  if nonempty taskId && nonempty taskData then
    match moved_to_other_column taskData status with
    | Normal true => (c', [status])
    | Normal false => (c', [])
    | Throw _ => (c', [status])
    end
  else (c', []).

(** The events that the column's element listens to. *)
Inductive Event : Type :=
| DragOver
| DragEnter
| DragLeave
| Drop (taskId taskData : string).

(** The handler that the element runs on an event. *)
Definition step (status : TaskStatus) (e : Event) (c : State) : State :=
  match e with
  | DragOver => handleDragOver c
  | DragEnter => handleDragEnter c
  | DragLeave => handleDragLeave c
  | Drop taskId taskData => fst (handleDrop status taskId taskData c)
  end.

(** The state of the column after a run of events. *)
Definition run (status : TaskStatus) (events : list Event) (c : State) : State :=
  List.fold_left (fun c e => step status e c) events c.

(** What holds of the column after any run of events from the idle state:
    the counter is not negative, a positive counter goes with the highlight,
    and so does the [drag-over] class. *)
Definition settled (c : State) : Prop :=
  (0 <= dragOverCounter c)%Z
  /\ ((0 < dragOverCounter c)%Z -> isDragOver c = true)
  /\ (dragOverEffect c = true -> isDragOver c = true).

End WithHost.
End KanbanColumn.

(** ** [components/task-form.tsx]: the form that creates tasks *)

Module TaskForm.

(** White space and line terminators among the code units below 256. *)
Definition is_space (c : ascii) : bool :=
  match nat_of_ascii c with
  | 9 | 10 | 11 | 12 | 13 | 32 | 160 => true
  | _ => false
  end.

Fixpoint trimStart (s : string) : string :=
  match s with
  | EmptyString => EmptyString
  | String c rest => if is_space c then trimStart rest else s
  end.

Definition reverse (s : string) : string :=
  string_of_list_ascii (List.rev (list_ascii_of_string s)).

(** [s.trim()] *)
Definition trim (s : string) : string :=
  reverse (trimStart (reverse (trimStart s))).

Record State : Type := {
  title : string;
  description : string;
  isSubmitting : bool
}.

(** Handle form submission.  Returns the new state and the arguments of the
    call to [onAddTask], if it is made. *)
Definition handleSubmit (f : State) : State * option (string * string) :=
  if String.eqb (trim (title f)) EmptyString then (f, None)
  else
    ({| title := EmptyString; description := EmptyString; isSubmitting := false |},
     Some (trim (title f), trim (description f))).

End TaskForm.

(** ** [components/task-card.tsx]: the card of one task *)

Module TaskCard.
Import Types.

(** What the card puts in the event's [dataTransfer]; [getData] of a format
    that was not set is the empty string. *)
Record DataTransfer : Type := {
  text_plain : string;
  application_json : string
}.

(** Handle drag start event.  Returns the data set on the event and the
    argument of the call to [onDragStart]. *)
Definition handleDragStart `{Host} (task : Task) : DataTransfer * Task :=
  ({| text_plain := id task;
      application_json := JSON_stringify (to_value task) |},
   task).

(** Handle task deletion with confirmation; [confirmed] is the answer to
    [window.confirm].  Returns the new [isDeleting] and the argument of the
    call to [onDelete], if it is made. *)
Definition handleDelete (confirmed : bool) (task : Task) (isDeleting : bool)
  : bool * option string :=
  if confirmed then (true, Some (id task)) else (isDeleting, None).

End TaskCard.

(** ** [components/kanban-board.tsx]: the board controller *)

Module KanbanBoard.
Import Types.

(** The state of the component that the operations below touch. *)
Record State : Type := {
  tasks : list Task;
  draggedTask : option Task
}.

(** What the host supplies when a task is created: [Date.now()], the nine
    characters cut from [Math.random().toString(36)], and
    [new Date().toISOString()]. *)
Record Fresh : Type := {
  now : N;
  suffix : string;
  iso : string
}.

(** Add a new task to the "To Do" column. *)
Definition addTask (fr : Fresh) (title description : string) (b : State) : State :=
  let newTask :=
    {| id := "task_" +:+ pretty (now fr) +:+ "_" +:+ suffix fr;
       Types.title := title;
       Types.description := description;
       status := Todo;
       createdAt := iso fr |} in
  {| tasks := tasks b ++ [newTask]; draggedTask := draggedTask b |}.

(** Update task status when moved between columns. *)
Definition updateTaskStatus (taskId : string) (newStatus : TaskStatus) (b : State)
  : State :=
  {| tasks :=
       List.map
         (fun task =>
            if String.eqb (id task) taskId
            then {| id := id task;
                    Types.title := Types.title task;
                    Types.description := Types.description task;
                    status := newStatus;
                    createdAt := createdAt task |}
            else task)
         (tasks b);
     draggedTask := draggedTask b |}.

(** Delete a task. *)
Definition deleteTask (taskId : string) (b : State) : State :=
  {| tasks := List.filter (fun task => negb (String.eqb (id task) taskId)) (tasks b);
     draggedTask := draggedTask b |}.

(** Handle drag start. *)
Definition handleDragStart (task : Task) (b : State) : State :=
  {| tasks := tasks b; draggedTask := Some task |}.

(** Handle drag end. *)
Definition handleDragEnd (b : State) : State :=
  {| tasks := tasks b; draggedTask := None |}.

(** Handle drop on column.  Returns the new state and the calls made to
    [updateTaskStatus], in order. *)
Definition handleDrop (column : TaskStatus) (b : State)
  : State * list (string * TaskStatus) :=
  let '(b1, calls) :=
    match draggedTask b with
    | Some dragged =>
        if negb (status_eqb (status dragged) column)
        then (updateTaskStatus (id dragged) column b, [(id dragged, column)])
        else (b, [])
    | None => (b, [])
    end in
  ({| tasks := tasks b1; draggedTask := None |}, calls).

(** Clear all tasks; [confirmed] is the answer to [window.confirm]. *)
Definition clearAllTasks (confirmed : bool) (b : State) : Eff State :=
  if confirmed then
    bind StorageService.clearTasks
      (fun _ => ret {| tasks := []; draggedTask := draggedTask b |})
  else ret b.

(** The form wired to the board: [<TaskForm onAddTask={addTask} />]. *)
Definition submit (fr : Fresh) (f : TaskForm.State) (b : State)
  : TaskForm.State * State :=
  match TaskForm.handleSubmit f with
  | (f', Some (title, description)) => (f', addTask fr title description b)
  | (f', None) => (f', b)
  end.

(** A column wired to the board: [<KanbanColumn onDrop={handleDrop} />].
    Returns the states of the column and of the board after the drop event
    and the calls made to [updateTaskStatus]. *)
Definition drop `{Host} (column : TaskStatus) (taskId taskData : string)
  (c : KanbanColumn.State) (b : State)
  : KanbanColumn.State * State * list (string * TaskStatus) :=
  let '(c', onDrops) := KanbanColumn.handleDrop column taskId taskData c in
  let '(b', calls) :=
    List.fold_left
      (fun acc target =>
         let '(b0, calls0) := acc in
         let '(b1, calls1) := handleDrop target b0 in
         (b1, calls0 ++ calls1))
      onDrops (b, []) in
  (c', b', calls).

(** Filter tasks by status: the lists handed to the three columns. *)
Definition todoTasks (b : State) : list Task :=
  List.filter (fun task => status_eqb (status task) Todo) (tasks b).

Definition inProgressTasks (b : State) : list Task :=
  List.filter (fun task => status_eqb (status task) InProgress) (tasks b).

Definition doneTasks (b : State) : list Task :=
  List.filter (fun task => status_eqb (status task) Done) (tasks b).

(** The list handed to the column of a status. *)
Definition columnTasks (column : TaskStatus) (b : State) : list Task :=
  match column with
  | Todo => todoTasks b
  | InProgress => inProgressTasks b
  | Done => doneTasks b
  end.

(** Save tasks to localStorage whenever tasks change: the body of the
    effect, with the [isLoading] and [storageAvailable] of the render. *)
Definition saveEffect `{Host} (isLoading storageAvailable : bool) (b : State)
  : Eff unit :=
  if negb isLoading && storageAvailable then
    try_catch
      (StorageService.saveTasks (List.map to_value (tasks b)))
      (fun _ => ret tt)
  else ret tt.

(** A card wired to the board: [<TaskCard onDelete={deleteTask} />]. *)
Definition deleteFromCard (confirmed : bool) (task : Task) (b : State) : State :=
  match TaskCard.handleDelete confirmed task false with
  | (_, Some taskId) => deleteTask taskId b
  | (_, None) => b
  end.

(** A whole gesture: the card of [task] is picked up, dropped on a column
    with the data the card has set, and the drag ends. *)
Definition dragAndDrop `{Host} (task : Task) (column : TaskStatus)
  (c : KanbanColumn.State) (b : State)
  : KanbanColumn.State * State * list (string * TaskStatus) :=
  let '(dataTransfer, started) := TaskCard.handleDragStart task in
  let b1 := handleDragStart started b in
  let '(c', b2, calls) :=
    drop column (TaskCard.text_plain dataTransfer)
      (TaskCard.application_json dataTransfer) c b1 in
  (c', handleDragEnd b2, calls).

End KanbanBoard.

(** ** A sample host

    An executable [Host] on which the code above can be run on concrete
    documents.  Its JSON reader and writer cover the texts whose numbers are
    integers and whose characters are code units below 256; its [Date.parse]
    accepts the format that [toISOString] writes.  No general property below
    depends on it. *)

Module SampleHost.

Definition dquote : ascii := ascii_of_nat 34.
Definition backslash : ascii := ascii_of_nat 92.

(** Writes a JSON text with apostrophes for its double quotes. *)
Fixpoint json_text (s : string) : string :=
  match s with
  | EmptyString => EmptyString
  | String c rest =>
      String (if Ascii.eqb c "'" then dquote else c) (json_text rest)
  end.

Definition hex_digit (n : nat) : ascii :=
  ascii_of_nat (if Nat.ltb n 10 then 48 + n else 87 + n).

Definition hex_value (c : ascii) : option nat :=
  let n := nat_of_ascii c in
  if Nat.leb 48 n && Nat.leb n 57 then Some (n - 48)
  else if Nat.leb 97 n && Nat.leb n 102 then Some (n - 87)
  else if Nat.leb 65 n && Nat.leb n 70 then Some (n - 55)
  else None.

(** The escape that [JSON.stringify] writes for a code unit, if any. *)
Definition escape (c : ascii) : string :=
  let n := nat_of_ascii c in
  if Nat.eqb n 34 then String backslash (String dquote EmptyString)
  else if Nat.eqb n 92 then String backslash (String backslash EmptyString)
  else if Nat.eqb n 8 then String backslash "b"
  else if Nat.eqb n 12 then String backslash "f"
  else if Nat.eqb n 10 then String backslash "n"
  else if Nat.eqb n 13 then String backslash "r"
  else if Nat.eqb n 9 then String backslash "t"
  else if Nat.ltb n 32 then
    String backslash
      (String "u" (String "0" (String "0"
        (String (hex_digit (n / 16)) (String (hex_digit (n mod 16)) EmptyString)))))
  else String c EmptyString.

Fixpoint escape_all (s : string) : string :=
  match s with
  | EmptyString => EmptyString
  | String c rest => escape c +:+ escape_all rest
  end.

Definition quote (s : string) : string :=
  String dquote (escape_all s +:+ String dquote EmptyString).

Fixpoint join (parts : list string) : string :=
  match parts with
  | [] => EmptyString
  | [p] => p
  | p :: rest => p +:+ "," +:+ join rest
  end.

Definition is_undefined (v : value) : bool :=
  match v with
  | VUndefined => true
  | _ => false
  end.

(** [JSON.stringify(v)]: [undefined] is written [null] inside an array and
    left out of an object. *)
Fixpoint stringify (v : value) : string :=
  match v with
  | VUndefined => "null"
  | VNull => "null"
  | VBool b => if b then "true" else "false"
  | VNum n => pretty n
  | VStr s => quote s
  | VArr elems => "[" +:+ join (List.map stringify elems) +:+ "]"
  | VObj props =>
      "{" +:+
      join
        ((fix members (ps : list (string * value)) : list string :=
            match ps with
            | [] => []
            | (k, x) :: rest =>
                if is_undefined x then members rest
                else (quote k +:+ ":" +:+ stringify x) :: members rest
            end) props) +:+
      "}"
  end.

Definition is_ws (c : ascii) : bool :=
  match nat_of_ascii c with
  | 9 | 10 | 13 | 32 => true
  | _ => false
  end.

Fixpoint skip_ws (s : string) : string :=
  match s with
  | EmptyString => EmptyString
  | String c rest => if is_ws c then skip_ws rest else s
  end.

(** The code unit that a one-letter escape stands for. *)
Definition unescape (c : ascii) : option ascii :=
  let n := nat_of_ascii c in
  if Nat.eqb n 34 then Some dquote
  else if Nat.eqb n 92 then Some backslash
  else if Nat.eqb n 47 then Some "/"%char
  else if Nat.eqb n 98 then Some (ascii_of_nat 8)
  else if Nat.eqb n 102 then Some (ascii_of_nat 12)
  else if Nat.eqb n 110 then Some (ascii_of_nat 10)
  else if Nat.eqb n 114 then Some (ascii_of_nat 13)
  else if Nat.eqb n 116 then Some (ascii_of_nat 9)
  else None.

Definition hex4 (a b c d : ascii) : option ascii :=
  match hex_value a, hex_value b, hex_value c, hex_value d with
  | Some 0, Some 0, Some x, Some y => Some (ascii_of_nat (16 * x + y))
  | _, _, _, _ => None
  end.

Definition cons_char (c : ascii) (r : option (string * string))
  : option (string * string) :=
  match r with
  | Some (str, rest) => Some (String c str, rest)
  | None => None
  end.

(** Reads a string literal after its opening quote: its content and the
    text after its closing quote. *)
Fixpoint parse_chars (s : string) : option (string * string) :=
  match s with
  | EmptyString => None
  | String c rest =>
      if Ascii.eqb c dquote then Some (EmptyString, rest)
      else if Ascii.eqb c backslash then
        match rest with
        | String "u" (String h1 (String h2 (String h3 (String h4 rest')))) =>
            match hex4 h1 h2 h3 h4 with
            | Some x => cons_char x (parse_chars rest')
            | None => None
            end
        | String e rest' =>
            match unescape e with
            | Some x => cons_char x (parse_chars rest')
            | None => None
            end
        | EmptyString => None
        end
      else if Nat.ltb (nat_of_ascii c) 32 then None
      else cons_char c (parse_chars rest)
  end.

Definition digit_value (c : ascii) : option Z :=
  let n := nat_of_ascii c in
  if Nat.leb 48 n && Nat.leb n 57 then Some (Z.of_nat (n - 48)) else None.

(** Reads the digits at the head of [s]: how many, their value, the rest. *)
Fixpoint parse_digits (acc : Z) (count : nat) (s : string) : nat * Z * string :=
  match s with
  | EmptyString => (count, acc, s)
  | String c rest =>
      match digit_value c with
      | Some d => parse_digits (10 * acc + d)%Z (S count) rest
      | None => (count, acc, s)
      end
  end.

Definition starts_with_zero (s : string) : bool :=
  match s with
  | String "0" _ => true
  | _ => false
  end.

Definition fraction_follows (s : string) : bool :=
  match s with
  | String "." _ | String "e" _ | String "E" _ => true
  | _ => false
  end.

(** An integer literal. *)
Definition parse_number (s : string) : option (value * string) :=
  let '(negative, body) :=
    match s with
    | String "-" rest => (true, rest)
    | _ => (false, s)
    end in
  let '(count, n, rest) := parse_digits 0 0 body in
  if Nat.eqb count 0 then None
  else if starts_with_zero body && Nat.ltb 1 count then None
  else if fraction_follows rest then None
  else Some (VNum (if negative then - n else n)%Z, rest).

Definition strip_prefix (p s : string) : option string :=
  if String.prefix p s
  then Some (String.substring (String.length p) (String.length s - String.length p) s)
  else None.

(** [o[k] = v] on a property list: a repeated key keeps its place and takes
    the later value. *)
Fixpoint set_prop (k : string) (v : value) (props : list (string * value))
  : list (string * value) :=
  match props with
  | [] => [(k, v)]
  | (k', v') :: rest =>
      if String.eqb k' k then (k, v) :: rest else (k', v') :: set_prop k v rest
  end.

Fixpoint parse_value (fuel : nat) (s : string) : option (value * string) :=
  match fuel with
  | O => None
  | S fuel' =>
      match skip_ws s with
      | EmptyString => None
      | String c rest as s' =>
          if Ascii.eqb c "[" then
            match skip_ws rest with
            | String "]" rest' => Some (VArr [], rest')
            | _ => parse_elements fuel' [] rest
            end
          else if Ascii.eqb c "{" then
            match skip_ws rest with
            | String "}" rest' => Some (VObj [], rest')
            | _ => parse_members fuel' [] rest
            end
          else if Ascii.eqb c dquote then
            match parse_chars rest with
            | Some (str, rest') => Some (VStr str, rest')
            | None => None
            end
          else
            match strip_prefix "null" s', strip_prefix "true" s', strip_prefix "false" s' with
            | Some rest', _, _ => Some (VNull, rest')
            | _, Some rest', _ => Some (VBool true, rest')
            | _, _, Some rest' => Some (VBool false, rest')
            | None, None, None => parse_number s'
            end
      end
  end
with parse_elements (fuel : nat) (acc : list value) (s : string)
  : option (value * string) :=
  match fuel with
  | O => None
  | S fuel' =>
      match parse_value fuel' s with
      | Some (v, rest) =>
          match skip_ws rest with
          | String "," rest' => parse_elements fuel' (acc ++ [v]) rest'
          | String "]" rest' => Some (VArr (acc ++ [v]), rest')
          | _ => None
          end
      | None => None
      end
  end
with parse_members (fuel : nat) (acc : list (string * value)) (s : string)
  : option (value * string) :=
  match fuel with
  | O => None
  | S fuel' =>
      match skip_ws s with
      | String c rest =>
          if Ascii.eqb c dquote then
            match parse_chars rest with
            | Some (k, rest1) =>
                match skip_ws rest1 with
                | String ":" rest2 =>
                    match parse_value fuel' rest2 with
                    | Some (v, rest3) =>
                        match skip_ws rest3 with
                        | String "," rest4 => parse_members fuel' (set_prop k v acc) rest4
                        | String "}" rest4 => Some (VObj (set_prop k v acc), rest4)
                        | _ => None
                        end
                    | None => None
                    end
                | _ => None
                end
            | None => None
            end
          else None
      | EmptyString => None
      end
  end.

(** [JSON.parse(text)] *)
Definition parse (text : string) : option value :=
  match parse_value (2 * String.length text + 2) text with
  | Some (v, rest) =>
      match skip_ws rest with
      | EmptyString => Some v
      | _ => None
      end
  | None => None
  end.

(** Days from 1970-01-01 to the given day of the proleptic Gregorian
    calendar. *)
Definition days_from_civil (y m d : Z) : Z :=
  (  let y' := if m <=? 2 then y - 1 else y in
  let era := y' / 400 in
  let yoe := y' - era * 400 in
  let mp := (m + 9) mod 12 in
  let doy := (153 * mp + 2) / 5 + d - 1 in
  let doe := yoe * 365 + yoe / 4 - yoe / 100 + doy in
  era * 146097 + doe - 719468)%Z.

Definition days_in_month (y m : Z) : Z :=
  (if m =? 2 then
    if ((y mod 4 =? 0) && negb (y mod 100 =? 0)) || (y mod 400 =? 0) then 29 else 28
  else if (m =? 4) || (m =? 6) || (m =? 9) || (m =? 11) then 30
  else 31)%Z.

(** Reads exactly [n] digits. *)
Fixpoint fixed_digits (n : nat) (acc : Z) (s : string) : option (Z * string) :=
  match n with
  | O => Some (acc, s)
  | S n' =>
      match s with
      | String c rest =>
          match digit_value c with
          | Some d => fixed_digits n' (10 * acc + d)%Z rest
          | None => None
          end
      | EmptyString => None
      end
  end.

Definition expect (c : ascii) (s : string) : option string :=
  match s with
  | String c' rest => if Ascii.eqb c c' then Some rest else None
  | EmptyString => None
  end.

(** [Date.parse(text)] for [YYYY-MM-DDTHH:mm:ss.sssZ]. *)
Definition date_parse (text : string) : option Z :=
  '(y, s) ← fixed_digits 4 0 text;
  s ← expect "-" s;
  '(m, s) ← fixed_digits 2 0 s;
  s ← expect "-" s;
  '(d, s) ← fixed_digits 2 0 s;
  s ← expect "T" s;
  '(hh, s) ← fixed_digits 2 0 s;
  s ← expect ":" s;
  '(mm, s) ← fixed_digits 2 0 s;
  s ← expect ":" s;
  '(ss, s) ← fixed_digits 2 0 s;
  s ← expect "." s;
  '(ms, s) ← fixed_digits 3 0 s;
  s ← expect "Z" s;
  if String.eqb s EmptyString
     && (1 <=? m)%Z && (m <=? 12)%Z && (1 <=? d)%Z && (d <=? days_in_month y m)%Z
     && (hh <? 24)%Z && (mm <? 60)%Z && (ss <? 60)%Z
  then Some ((((days_from_civil y m d * 24 + hh) * 60 + mm) * 60 + ss) * 1000 + ms)%Z
  else None.

Definition host : Host :=
  {| JSON_parse := parse; JSON_stringify := stringify; Date_parse := date_parse |}.

Definition newline : string := String (ascii_of_nat 10) EmptyString.

Fixpoint spaces (n : nat) : string :=
  match n with
  | O => EmptyString
  | S n' => String " " (spaces n')
  end.

Fixpoint join_lines (parts : list string) : string :=
  match parts with
  | [] => EmptyString
  | [p] => p
  | p :: rest => p +:+ "," +:+ newline +:+ join_lines rest
  end.

(** One level of [JSON.stringify(v, null, 2)]: the parts, each on a line of
    its own behind the indentation of the level below. *)
Definition block (open close : string) (level : nat) (parts : list string) : string :=
  match parts with
  | [] => open +:+ close
  | _ =>
      open +:+ newline
      +:+ join_lines (List.map (fun part => spaces (2 * S level) +:+ part) parts)
      +:+ newline +:+ spaces (2 * level) +:+ close
  end.

Fixpoint stringify_at (level : nat) (v : value) : string :=
  match v with
  | VArr elems => block "[" "]" level (List.map (stringify_at (S level)) elems)
  | VObj props =>
      block "{" "}" level
        ((fix members (ps : list (string * value)) : list string :=
            match ps with
            | [] => []
            | (k, x) :: rest =>
                if is_undefined x then members rest
                else (quote k +:+ ": " +:+ stringify_at (S level) x) :: members rest
            end) props)
  | _ => stringify v
  end.

(** [JSON.stringify(v, null, 2)] *)
Definition stringify_indented (v : value) : string := stringify_at 0 v.

End SampleHost.

(** ** Sample data *)

Module Samples.
Import Types.

Definition task1 : Task :=
  {| id := "1"; title := "Write report"; description := "First draft";
     status := Todo; createdAt := "2024-01-15T10:30:00.000Z" |}.

Definition task2 : Task :=
  {| id := "2"; title := "Review"; description := EmptyString;
     status := InProgress; createdAt := "2024-02-01T08:00:00.000Z" |}.

(** A second task that carries the id of [task1]. *)
Definition task1' : Task :=
  {| id := "1"; title := "Impostor"; description := EmptyString;
     status := Done; createdAt := "2024-03-01T09:00:00.000Z" |}.

(** The text that the sample host writes for [[task1]]. *)
Definition text1 : string :=
  SampleHost.json_text
    "[{'id':'1','title':'Write report','description':'First draft','status':'todo','createdAt':'2024-01-15T10:30:00.000Z'}]".

(** A backup document whose two tasks share the id 1. *)
Definition backup_twice : string :=
  SampleHost.json_text
    "{'version':'1.0','tasks':[{'id':'1','title':'Write report','description':'First draft','status':'todo','createdAt':'2024-01-15T10:30:00.000Z'},{'id':'1','title':'Impostor','description':'','status':'done','createdAt':'2024-03-01T09:00:00.000Z'}]}".

(** The example of the specification: a task that lacks required fields. *)
Definition backup_incomplete : string :=
  SampleHost.json_text "{'tasks':[{'id':'x'}]}".

(** A backup document with a task whose id is 1 and a task whose id is 2. *)
Definition backup_mixed : string :=
  SampleHost.json_text
    "{'tasks':[{'id':'1','title':'Impostor','description':'','status':'done','createdAt':'2024-03-01T09:00:00.000Z'},{'id':'2','title':'Review','description':'','status':'in-progress','createdAt':'2024-02-01T08:00:00.000Z'}]}".

(** Items as a save of [[task1]] leaves them. *)
Definition task1_items : gmap string string :=
  <["kanban-version" := "1.0"]> (<["kanban-tasks" := text1]> ∅).

(** A store with room to spare that holds nothing. *)
Definition empty_store : World := Live 5242880 ∅.

(** A store that is full but for forty characters. *)
Definition full_store : World := Live 40 ∅.

(** Items whose version marker is the empty string. *)
Definition blank_version_items : gmap string string :=
  <["kanban-version" := EmptyString]> (<["kanban-tasks" := text1]> ∅).

(** Items written by another version. *)
Definition old_version_items : gmap string string :=
  <["kanban-version" := "0.9"]> (<["kanban-tasks" := text1]> ∅).

(** What the host hands to [addTask] at some moment. *)
Definition sample_fresh : KanbanBoard.Fresh :=
  {| KanbanBoard.now := 1705314600000;
     KanbanBoard.suffix := "k3j9x0q2m";
     KanbanBoard.iso := "2024-01-15T10:30:00.000Z" |}.

Definition empty_board : KanbanBoard.State :=
  {| KanbanBoard.tasks := []; KanbanBoard.draggedTask := None |}.

(** A board with two tasks, the first of which is being dragged. *)
Definition sample_board : KanbanBoard.State :=
  {| KanbanBoard.tasks := [task1; task2]; KanbanBoard.draggedTask := Some task1 |}.

(** A task whose id is the empty string. *)
Definition task_without_id : Task :=
  {| id := EmptyString; title := "Nameless"; description := EmptyString;
     status := Todo; createdAt := "2024-04-01T12:00:00.000Z" |}.

(** The text of an array with [task1], a number and [task2]. *)
Definition text_with_noise : string :=
  SampleHost.json_text
    "[{'id':'1','title':'Write report','description':'First draft','status':'todo','createdAt':'2024-01-15T10:30:00.000Z'},42,{'id':'2','title':'Review','description':'','status':'in-progress','createdAt':'2024-02-01T08:00:00.000Z'}]".

(** Items with an invalid element among the tasks and an entry of another
    application. *)
Definition noisy_items : gmap string string :=
  <["theme" := "dark"]> (<["kanban-tasks" := text_with_noise]> ∅).

(** Items whose collection is not JSON. *)
Definition corrupt_items : gmap string string :=
  <["kanban-version" := "1.0"]> (<["kanban-tasks" := "{oops"]> ∅).

End Samples.

(** * Properties *)

(** ** The world and the monad *)

Section WorldFacts.

Lemma getItem_Live (k : string) (quota : N) (items : gmap string string) :
  getItem k (Live quota items) = (Live quota items, Normal (items !! k)).
Proof. reflexivity. Qed.

Lemma removeItem_Live (k : string) (quota : N) (items : gmap string string) :
  removeItem k (Live quota items) = (Live quota (delete k items), Normal tt).
Proof. reflexivity. Qed.

Lemma setItem_fits (k v : string) (quota : N) (items : gmap string string) :
  (usage (<[k := v]> items) <= quota)%N ->
  setItem k v (Live quota items) = (Live quota (<[k := v]> items), Normal tt).
Proof.
  intros Hfit. unfold setItem.
  destruct (N.leb_spec (usage (<[k := v]> items)) quota) as [_ | Hlt]; [reflexivity | lia].
Qed.

Lemma setItem_overflows (k v : string) (quota : N) (items : gmap string string) :
  (quota < usage (<[k := v]> items))%N ->
  setItem k v (Live quota items) = (Live quota items, Throw QuotaExceededError).
Proof.
  intros Hfit. unfold setItem.
  destruct (N.leb_spec (usage (<[k := v]> items)) quota) as [Hle | _]; [lia | reflexivity].
Qed.

End WorldFacts.

(** ** The persistence service *)

Section StorageFacts.
Context `{Host}.
Import StorageService.

Lemma keys_differ : STORAGE_KEY <> VERSION_KEY.
Proof. discriminate. Qed.

Lemma filter_all_true {A} (p : A -> bool) (l : list A) :
  forallb p l = true -> List.filter p l = l.
Proof.
  induction l as [| a l IH]; simpl; [reflexivity |].
  intros Hall. apply andb_true_iff in Hall as [Ha Hl].
  rewrite Ha, IH by assumption. reflexivity.
Qed.

Lemma forallb_filter {A} (p : A -> bool) (l : list A) :
  forallb p (List.filter p l) = true.
Proof.
  induction l as [| a l IH]; simpl; [reflexivity |].
  destruct (p a) eqn:Ha; simpl; [rewrite Ha |]; exact IH.
Qed.

Lemma filter_filter_same {A} (p : A -> bool) (l : list A) :
  List.filter p (List.filter p l) = List.filter p l.
Proof. apply filter_all_true, forallb_filter. Qed.

(** [isValidTask] decides the validity predicate of the specification. *)
Lemma isValidTask_iff (task : value) :
  isValidTask task = true <-> valid_per_spec task.
Proof.
  unfold isValidTask, valid_per_spec. split.
  - intros Hv. repeat (apply andb_true_iff in Hv as [Hv ?]).
    destruct task as [| | b | n | s0 | elems | props]; try discriminate.
    cbn [prop] in *.
    destruct (lookup_prop "id" props) as [| | | | i | |] eqn:Ei; try discriminate.
    destruct (lookup_prop "title" props) as [| | | | t | |] eqn:Et; try discriminate.
    destruct (lookup_prop "description" props) as [| | | | d | |] eqn:Ed; try discriminate.
    destruct (lookup_prop "status" props) as [| | | | s | |] eqn:Es; try discriminate.
    destruct (lookup_prop "createdAt" props) as [| | | | c | |] eqn:Ec; try discriminate.
    exists props, i, t, d, s, c. repeat split; try assumption.
    + match goal with
      | Hin : includes _ _ = true |- _ =>
          unfold includes in Hin; cbn [existsb strict_eq_string] in Hin;
          rewrite !orb_true_iff, !String.eqb_eq in Hin;
          destruct Hin as [Hin | [Hin | [Hin | Hin]]]; auto; discriminate Hin
      end.
    + match goal with
      | Hd : date_parses _ = true |- _ =>
          unfold date_parses in Hd; destruct (Date_parse c); [discriminate | discriminate Hd]
      end.
  - intros (props & i & t & d & s & c & -> & Hi & Ht & Hd & Hs & Hin & Hc & Hdate).
    cbn [prop truthy typeof]. rewrite Hi, Ht, Hd, Hs, Hc. cbn [typeof].
    unfold date_parses. destruct (Date_parse c); [| contradiction].
    destruct Hin as [-> | [-> | ->]]; reflexivity.
Qed.

(** Neither [clearTasks] nor [saveTasks] lets an exception out. *)
Lemma clearTasks_normal (w : World) : exists w', clearTasks w = (w', Normal tt).
Proof. destruct w; simpl; eauto. Qed.

Lemma clearTasks_Live (quota : N) (items : gmap string string) :
  clearTasks (Live quota items)
  = (Live quota (delete VERSION_KEY (delete STORAGE_KEY items)), Normal tt).
Proof. reflexivity. Qed.

Lemma saveTasks_normal (tasks : list value) (w : World) :
  exists w', saveTasks tasks w = (w', Normal tt).
Proof.
  destruct w as [| | quota items]; [simpl; eauto .. |].
  unfold saveTasks, try_catch, bind, window_undefined.
  destruct (setItem STORAGE_KEY _ (Live quota items)) as [w1 [[] | e]] eqn:E1; [| simpl; eauto].
  destruct (setItem VERSION_KEY STORAGE_VERSION w1) as [w2 [[] | e]] eqn:E2; simpl; eauto.
Qed.

Lemma saveTasks_Live (tasks : list value) (quota : N) (items : gmap string string) :
  (usage (<[STORAGE_KEY := JSON_stringify (VArr (List.filter isValidTask tasks))]> items)
     <= quota)%N ->
  (usage (saved tasks items) <= quota)%N ->
  saveTasks tasks (Live quota items) = (Live quota (saved tasks items), Normal tt).
Proof.
  intros Hfit1 Hfit2.
  unfold saveTasks, try_catch, bind, window_undefined.
  rewrite (setItem_fits _ _ _ _ Hfit1).
  unfold saved in Hfit2. rewrite (setItem_fits _ _ _ _ Hfit2). reflexivity.
Qed.

(** A save whose first write does not fit is dropped: the store keeps what
    it held and the caller is told nothing. *)
Lemma saveTasks_overflow (tasks : list value) (quota : N) (items : gmap string string) :
  (quota
   < usage (<[STORAGE_KEY := JSON_stringify (VArr (List.filter isValidTask tasks))]> items))%N ->
  saveTasks tasks (Live quota items) = (Live quota items, Normal tt).
Proof.
  intros Hover.
  unfold saveTasks, try_catch, bind, window_undefined.
  rewrite (setItem_overflows _ _ _ _ Hover). reflexivity.
Qed.

(** Loading a store that holds the current version marker and the text of
    an array of valid tasks returns that array and leaves the store as it
    is. *)
Lemma getTasks_Live_valid (quota : N) (items : gmap string string)
  (text : string) (elems : list value) :
  items !! VERSION_KEY = Some STORAGE_VERSION ->
  items !! STORAGE_KEY = Some text ->
  text <> EmptyString ->
  JSON_parse text = Some (VArr elems) ->
  forallb isValidTask elems = true ->
  getTasks (Live quota items) = (Live quota items, Normal elems).
Proof.
  intros Hver Hsto Hne Hparse Hvalid.
  unfold getTasks, try_catch, bind, window_undefined.
  rewrite getItem_Live, Hver.
  change (version_mismatch (Some STORAGE_VERSION)) with false. cbv beta iota.
  rewrite getItem_Live, Hsto. unfold not_stored.
  destruct (String.eqb_spec text EmptyString) as [-> | _]; [congruence |].
  cbv beta iota. unfold JSON_parse_stmt, text_of. rewrite Hparse.
  unfold ret at 1. cbv beta iota.
  rewrite (filter_all_true _ _ Hvalid), Nat.eqb_refl. reflexivity.
Qed.

(** [getTasks] never lets an exception out, and what it returns is valid. *)
Lemma getTasks_normal (w : World) :
  exists w' tasks,
    getTasks w = (w', Normal tasks) /\ forallb isValidTask tasks = true.
Proof.
  destruct w as [| | quota items]; [simpl; eauto .. |].
  unfold getTasks, try_catch, bind, window_undefined.
  rewrite getItem_Live.
  destruct (version_mismatch (items !! VERSION_KEY)); [simpl; eauto |].
  cbv beta. rewrite getItem_Live.
  destruct (not_stored (items !! STORAGE_KEY)); [simpl; eauto |].
  unfold JSON_parse_stmt.
  destruct (JSON_parse (text_of (items !! STORAGE_KEY))) as [parsed |];
    [| simpl; eauto].
  unfold ret at 1. cbv beta iota.
  destruct parsed as [| | b | n | s | elems | props]; try (simpl; eauto; fail).
  set (validTasks := List.filter isValidTask elems).
  destruct (negb (Nat.eqb (length validTasks) (length elems))).
  - destruct (saveTasks_normal validTasks (Live quota items)) as [w' Hs].
    rewrite Hs. unfold ret. do 2 eexists. split; [reflexivity |].
    apply forallb_filter.
  - unfold ret. do 2 eexists. split; [reflexivity |]. apply forallb_filter.
Qed.

End StorageFacts.

(** ** Saving, then loading (C1) *)

Section SaveLoad.
Context `{Host}.
Import StorageService.

(** C1, as amended.  In a browser whose store takes both writes of
    [saveTasks], and on a host whose JSON reader gives back the array that
    its writer wrote (and rejects the empty text), saving a list [C] and then
    loading returns exactly the elements of [C] that pass [isValidTask], in
    the order they have in [C], and loading changes nothing in the store.
    The elements that pass are those that the specification calls valid. *)
Theorem save_then_load_returns_valid
  (C : list value) (quota : N) (items : gmap string string) :
  let valid := List.filter isValidTask C in
  JSON_parse EmptyString = None ->
  JSON_parse (JSON_stringify (VArr valid)) = Some (VArr valid) ->
  (usage (<[STORAGE_KEY := JSON_stringify (VArr valid)]> items) <= quota)%N ->
  (usage (saved C items) <= quota)%N ->
  getTasks (exec (saveTasks C) (Live quota items))
  = (Live quota (saved C items), Normal valid)
  /\ (forall task, In task valid <-> In task C /\ valid_per_spec task).
Proof.
  intros valid Hempty Hround Hfit1 Hfit2.
  split; [| intros task; unfold valid; rewrite filter_In, isValidTask_iff; reflexivity].
  unfold exec. rewrite (saveTasks_Live C quota items Hfit1 Hfit2). simpl fst.
  apply getTasks_Live_valid with (text := JSON_stringify (VArr valid)).
  - unfold saved. apply lookup_insert_eq.
  - unfold saved. rewrite lookup_insert_ne by (symmetry; apply keys_differ).
    apply lookup_insert_eq.
  - intros Hnil. rewrite Hnil in Hround. congruence.
  - exact Hround.
  - apply forallb_filter.
Qed.

End SaveLoad.

Section SaveLoadSample.
Import StorageService Samples Types.
#[local] Existing Instance SampleHost.host.

Lemma save_then_load_returns_valid_witness :
  List.filter isValidTask [to_value task1; VNull; to_value task2]
  = [to_value task1; to_value task2]
  /\ getTasks
       (exec (saveTasks [to_value task1; VNull; to_value task2]) (Live 5242880 ∅))
     = (Live 5242880 (saved [to_value task1; VNull; to_value task2] ∅),
        Normal (List.filter isValidTask [to_value task1; VNull; to_value task2])).
Proof.
  split; [vm_compute; reflexivity |].
  apply (fun h1 h2 h3 h4 =>
           proj1 (save_then_load_returns_valid [to_value task1; VNull; to_value task2]
                    5242880 ∅ h1 h2 h3 h4)).
  - reflexivity.
  - vm_compute. reflexivity.
  - vm_compute. discriminate.
  - vm_compute. discriminate.
Defined.

(** C1 as it is stated fails where the store has no room for the text, and
    where there is no [window]: the save is dropped without a word and the
    load returns nothing. *)
Lemma save_then_load_full_store :
  result getTasks (exec (saveTasks [to_value task1]) full_store)
    <> Normal (List.filter isValidTask [to_value task1])
  /\ result getTasks (exec (saveTasks [to_value task1]) NoWindow)
    <> Normal (List.filter isValidTask [to_value task1]).
Proof. split; vm_compute; discriminate. Qed.

End SaveLoadSample.

(** ** The version gate (C3) *)

Section VersionGate.
Context `{Host}.
Import StorageService.

(** C3, as amended.  When the store holds a version marker that is not the
    empty string and is not "1.0", [getTasks] removes the collection and
    the marker and returns the empty list. *)
Theorem getTasks_discards_other_version
  (quota : N) (items : gmap string string) (version : string) :
  items !! VERSION_KEY = Some version ->
  version <> EmptyString ->
  version <> STORAGE_VERSION ->
  getTasks (Live quota items)
  = (Live quota (delete VERSION_KEY (delete STORAGE_KEY items)), Normal []).
Proof.
  intros Hver Hne Hother.
  unfold getTasks, try_catch, bind, window_undefined.
  rewrite getItem_Live, Hver. unfold version_mismatch.
  destruct (String.eqb_spec version EmptyString) as [? | _]; [contradiction |].
  destruct (String.eqb_spec version STORAGE_VERSION) as [? | _]; [contradiction |].
  reflexivity.
Qed.

End VersionGate.

Section VersionGateSample.
Import StorageService Samples Types.
#[local] Existing Instance SampleHost.host.

Lemma getTasks_discards_other_version_witness :
  old_version_items !! VERSION_KEY = Some "0.9"
  /\ getTasks (Live 5242880 old_version_items)
     = (Live 5242880 (delete VERSION_KEY (delete STORAGE_KEY old_version_items)),
        Normal []).
Proof.
  split; [reflexivity |].
  apply (getTasks_discards_other_version _ _ "0.9"); [reflexivity | discriminate ..].
Defined.

(** C3 as it is stated fails for a marker that is present and is the empty
    string: it differs from "1.0", yet the stored tasks are loaded and
    nothing is removed. *)
Lemma blank_version_marker_is_kept :
  blank_version_items !! VERSION_KEY = Some EmptyString
  /\ EmptyString <> STORAGE_VERSION
  /\ getTasks (Live 5242880 blank_version_items)
     <> (Live 5242880 (delete VERSION_KEY (delete STORAGE_KEY blank_version_items)),
         Normal [])
  /\ getTasks (Live 5242880 blank_version_items)
     = (Live 5242880 blank_version_items, Normal [to_value task1]).
Proof.
  split; [reflexivity |]. split; [discriminate |].
  split; [vm_compute; discriminate | vm_compute; reflexivity].
Qed.

End VersionGateSample.

(** ** Importing a backup (C2, C7, C10) *)

Section ImportBackup.
Context `{Host}.
Import StorageService.

Lemma isValidTask_id_string (task : value) :
  isValidTask task = true -> exists s, prop task "id" = VStr s.
Proof.
  unfold isValidTask. intros Hv.
  repeat (apply andb_true_iff in Hv as [Hv ?]).
  destruct (prop task "id"); try discriminate. eauto.
Qed.

Lemma same_value_zero_string (s : string) (v : value) :
  same_value_zero (VStr s) v = true <-> v = VStr s.
Proof.
  destruct v; simpl; try (split; [discriminate | congruence]).
  rewrite String.eqb_eq. split; congruence.
Qed.

(** For a string, membership in the [Set] of ids is membership in the
    list. *)
Lemma Set_has_string (ids : list value) (s : string) :
  Set_has ids (VStr s) = true <-> In (VStr s) ids.
Proof.
  unfold Set_has. rewrite existsb_exists. split.
  - intros (v & Hin & Hsame). apply same_value_zero_string in Hsame. congruence.
  - intros Hin. exists (VStr s). split; [exact Hin |].
    apply same_value_zero_string. reflexivity.
Qed.

Lemma id_taken_iff (existing : list value) (task : value) :
  isValidTask task = true ->
  Set_has (List.map (fun e => prop e "id") existing) (prop task "id") = true
  <-> exists e, In e existing /\ prop e "id" = prop task "id".
Proof.
  intros Hv. destruct (isValidTask_id_string task Hv) as [s Hs]. rewrite Hs.
  rewrite Set_has_string, in_map_iff. split; intros (e & ? & ?); exists e; auto.
Qed.

Lemma appended_valid (existing imported : list value) :
  forallb isValidTask (appended existing imported) = true.
Proof.
  apply forallb_forall. intros t Hin. unfold appended in Hin.
  apply filter_In in Hin as [Hin _]. apply filter_In in Hin as [_ Hv]. exact Hv.
Qed.

(** The run of [importTasks] on a document that has valid tasks. *)
Lemma importTasks_run (jsonData : string) (data : value) (imported : list value)
  (w w1 : World) (existing : list value) :
  JSON_parse jsonData = Some data ->
  prop data "tasks" = VArr imported ->
  List.filter isValidTask imported <> [] ->
  getTasks w = (w1, Normal existing) ->
  importTasks jsonData w
  = (exec (saveTasks (existing ++ appended existing imported)) w1,
     Normal (imported_ok (length (appended existing imported)))).
Proof.
  intros Hparse Htasks Hsome Hget.
  unfold importTasks, try_catch, bind, JSON_parse_stmt. rewrite Hparse.
  unfold ret at 1.
  destruct data as [| | b | n | s | elems | props]; try discriminate Htasks.
  unfold member, ret at 1. rewrite Htasks. cbn [truthy isArray negb orb elements_of].
  destruct (List.filter isValidTask imported) as [| t valid] eqn:Hvalid; [congruence |].
  cbn [length Nat.eqb]. rewrite Hget.
  unfold appended, exec. rewrite Hvalid.
  destruct (saveTasks_normal
              (existing ++
               List.filter
                 (fun task =>
                    negb (Set_has (List.map (fun task0 => prop task0 "id") existing)
                            (prop task "id")))
                 (t :: valid)) w1) as [w2 Hsave].
  rewrite Hsave. reflexivity.
Qed.

(** Where the merged list lands when the store takes both writes. *)
Lemma merged_is_stored (existing imported : list value)
  (quota : N) (items : gmap string string) :
  forallb isValidTask existing = true ->
  let merged := existing ++ appended existing imported in
  (usage (<[STORAGE_KEY := JSON_stringify (VArr merged)]> items) <= quota)%N ->
  (usage (<[VERSION_KEY := STORAGE_VERSION]>
            (<[STORAGE_KEY := JSON_stringify (VArr merged)]> items)) <= quota)%N ->
  exec (saveTasks merged) (Live quota items)
  = Live quota
      (<[VERSION_KEY := STORAGE_VERSION]>
         (<[STORAGE_KEY := JSON_stringify (VArr merged)]> items)).
Proof.
  intros Hex merged Hfit1 Hfit2.
  assert (Hall : List.filter isValidTask merged = merged).
  { apply filter_all_true. unfold merged. rewrite forallb_app, Hex.
    apply appended_valid. }
  unfold exec. rewrite saveTasks_Live; unfold saved; rewrite Hall; auto.
Qed.

(** C2.  For a backup text that parses to a document whose [tasks] array
    holds at least one valid task, and for any world, [importTasks] loads the
    existing tasks, hands [saveTasks] the existing tasks followed by the valid
    imported tasks whose id no existing task has, and reports success with
    the number of tasks so appended.  When the store takes the two writes,
    the merged list is what it then holds. *)
Theorem importTasks_merges_by_id
  (jsonData : string) (data : value) (imported : list value)
  (w w1 : World) (existing : list value) :
  JSON_parse jsonData = Some data ->
  prop data "tasks" = VArr imported ->
  (exists task, In task imported /\ isValidTask task = true) ->
  getTasks w = (w1, Normal existing) ->
  let newTasks := appended existing imported in
  importTasks jsonData w
  = (exec (saveTasks (existing ++ newTasks)) w1,
     Normal {| success := true;
               message := "Successfully imported " +:+ pretty (length newTasks) +:+ " tasks";
               tasksImported := length newTasks |})
  /\ (forall task,
        In task newTasks <->
        In task imported /\ isValidTask task = true
        /\ forall e, In e existing -> prop e "id" <> prop task "id")
  /\ (exists keep, newTasks = List.filter keep imported)
  /\ (forall quota items,
        w1 = Live quota items ->
        (usage (<[STORAGE_KEY := JSON_stringify (VArr (existing ++ newTasks))]> items)
           <= quota)%N ->
        (usage (<[VERSION_KEY := STORAGE_VERSION]>
                  (<[STORAGE_KEY := JSON_stringify (VArr (existing ++ newTasks))]> items))
           <= quota)%N ->
        exec (saveTasks (existing ++ newTasks)) w1
        = Live quota
            (<[VERSION_KEY := STORAGE_VERSION]>
               (<[STORAGE_KEY := JSON_stringify (VArr (existing ++ newTasks))]> items))).
Proof.
  intros Hparse Htasks (t0 & Hin0 & Hv0) Hget newTasks.
  assert (Hsome : List.filter isValidTask imported <> []).
  { intros Hnil. assert (Hf : In t0 (List.filter isValidTask imported))
      by (apply filter_In; auto).
    rewrite Hnil in Hf. destruct Hf. }
  split; [exact (importTasks_run _ _ _ _ _ _ Hparse Htasks Hsome Hget) |].
  split; [| split].
  - intros task. unfold newTasks, appended. rewrite !filter_In, negb_true_iff.
    split.
    + intros [[Hin Hv] Hfree]. repeat split; auto.
      intros e He Heq. apply not_true_iff_false in Hfree. apply Hfree.
      apply id_taken_iff; eauto.
    + intros (Hin & Hv & Hfree). repeat split; auto.
      apply not_true_iff_false. intros Htaken.
      apply id_taken_iff in Htaken as (e & He & Heq); [| exact Hv].
      exact (Hfree e He Heq).
  - exists (fun task =>
              isValidTask task
              && negb (Set_has (List.map (fun e => prop e "id") existing)
                         (prop task "id"))).
    unfold newTasks, appended. clear. induction imported as [| t l IH]; [reflexivity |].
    simpl. destruct (isValidTask t); simpl; [| exact IH].
    destruct (negb _); [f_equal |]; exact IH.
  - intros quota items -> Hfit1 Hfit2.
    apply merged_is_stored; auto.
    destruct (getTasks_normal w) as (w' & l & Hg & Hall).
    rewrite Hget in Hg. injection Hg as _ <-. exact Hall.
Qed.

(** C7.  [importTasks] always ends normally with a result.  On a text that
    does not parse the result is the failure "Failed to parse backup file"
    with nothing imported; on a document whose [tasks] array holds no valid
    task it is the failure "No valid tasks found in backup" with nothing
    imported.  In both cases the world is left as it was. *)
Theorem importTasks_never_throws (jsonData : string) (w : World) :
  exists w' r,
    importTasks jsonData w = (w', Normal r)
    /\ (JSON_parse jsonData = None ->
        w' = w
        /\ r = {| success := false; message := "Failed to parse backup file";
                  tasksImported := 0 |})
    /\ (forall data imported,
          JSON_parse jsonData = Some data ->
          prop data "tasks" = VArr imported ->
          Forall (fun task => isValidTask task = false) imported ->
          w' = w
          /\ r = {| success := false; message := "No valid tasks found in backup";
                    tasksImported := 0 |}).
Proof.
  unfold importTasks, try_catch, bind, JSON_parse_stmt.
  destruct (JSON_parse jsonData) as [data |] eqn:Hparse.
  2:{ simpl. do 2 eexists. split; [reflexivity |]. split; [auto | discriminate]. }
  unfold ret at 1.
  destruct data as [| | b | n | s | elems | props];
    try (simpl; do 2 eexists; split; [reflexivity |];
         split; [discriminate |];
         intros data' imported Heq Habs; injection Heq as <-; discriminate Habs).
  unfold member, ret at 1.
  destruct (negb (truthy (prop (VObj props) "tasks"))
            || negb (isArray (prop (VObj props) "tasks"))) eqn:Hshape.
  { simpl. do 2 eexists. split; [reflexivity |]. split; [discriminate |].
    intros data imported Heq Htasks _. injection Heq as <-.
    rewrite Htasks in Hshape. discriminate Hshape. }
  destruct (List.filter isValidTask (elements_of (prop (VObj props) "tasks")))
    as [| t valid] eqn:Hvalid.
  { simpl. do 2 eexists. split; [reflexivity |]. split; [discriminate | auto]. }
  cbn [length Nat.eqb].
  destruct (getTasks_normal w) as (w1 & existing & Hget & _). rewrite Hget.
  match goal with
  | |- context [saveTasks ?l w1] =>
      destruct (saveTasks_normal l w1) as [w2 Hsave]; rewrite Hsave
  end.
  do 2 eexists. split; [reflexivity |]. split; [discriminate |].
  intros data imported Heq Htasks Hnone. exfalso. injection Heq as <-.
  rewrite Htasks in Hvalid. simpl in Hvalid.
  assert (Hin : In t (List.filter isValidTask imported)) by (rewrite Hvalid; left; reflexivity).
  apply filter_In in Hin as [Hin Hv].
  rewrite Forall_forall in Hnone. apply list_elem_of_In in Hin.
  specialize (Hnone t Hin). congruence.
Qed.

(** C10.  The ids that [importTasks] looks at are those of the existing
    tasks only.  For a backup whose [tasks] array is two valid tasks with one
    and the same id, an id that no existing task has, both tasks are appended
    and counted, and when the store takes the two writes it then holds two
    tasks with that id. *)
Theorem importTasks_keeps_duplicates_of_backup
  (jsonData : string) (data t1 t2 : value) (w w1 : World) (existing : list value) :
  JSON_parse jsonData = Some data ->
  prop data "tasks" = VArr [t1; t2] ->
  isValidTask t1 = true ->
  isValidTask t2 = true ->
  prop t1 "id" = prop t2 "id" ->
  getTasks w = (w1, Normal existing) ->
  (forall e, In e existing -> prop e "id" <> prop t1 "id") ->
  importTasks jsonData w
  = (exec (saveTasks (existing ++ [t1; t2])) w1,
     Normal {| success := true; message := "Successfully imported 2 tasks";
               tasksImported := 2 |})
  /\ (forall quota items,
        w1 = Live quota items ->
        (usage (<[STORAGE_KEY := JSON_stringify (VArr (existing ++ [t1; t2]))]> items)
           <= quota)%N ->
        (usage (<[VERSION_KEY := STORAGE_VERSION]>
                  (<[STORAGE_KEY := JSON_stringify (VArr (existing ++ [t1; t2]))]> items))
           <= quota)%N ->
        exec (saveTasks (existing ++ [t1; t2])) w1
        = Live quota
            (<[VERSION_KEY := STORAGE_VERSION]>
               (<[STORAGE_KEY := JSON_stringify (VArr (existing ++ [t1; t2]))]> items))).
Proof.
  intros Hparse Htasks Hv1 Hv2 Hid Hget Hfree.
  assert (Hnot : forall t, isValidTask t = true -> prop t "id" = prop t1 "id" ->
            Set_has (List.map (fun e => prop e "id") existing) (prop t "id") = false).
  { intros t Hv Heq. apply not_true_iff_false. intros Htaken.
    apply id_taken_iff in Htaken as (e & He & Hsame); [| exact Hv].
    apply (Hfree e He). congruence. }
  assert (Happ : appended existing [t1; t2] = [t1; t2]).
  { unfold appended. simpl. rewrite Hv1, Hv2. simpl.
    rewrite (Hnot t1 Hv1 eq_refl), (Hnot t2 Hv2 (eq_sym Hid)). reflexivity. }
  split.
  - rewrite (importTasks_run jsonData data [t1; t2] w w1 existing Hparse Htasks);
      [rewrite Happ; reflexivity | | exact Hget].
    simpl. rewrite Hv1. discriminate.
  - intros quota items -> Hfit1 Hfit2.
    rewrite <- Happ in *. apply merged_is_stored; auto.
    destruct (getTasks_normal w) as (w' & l & Hg & Hall).
    rewrite Hget in Hg. injection Hg as _ <-. exact Hall.
Qed.

End ImportBackup.

Section ImportSample.
Import StorageService Samples Types.
#[local] Existing Instance SampleHost.host.

Lemma importTasks_merges_by_id_witness :
  getTasks (Live 5242880 task1_items)
  = (Live 5242880 task1_items, Normal [to_value task1])
  /\ appended [to_value task1] [to_value task1'; to_value task2] = [to_value task2]
  /\ importTasks backup_mixed (Live 5242880 task1_items)
     = (exec (saveTasks
                ([to_value task1]
                 ++ appended [to_value task1] [to_value task1'; to_value task2]))
          (Live 5242880 task1_items),
        Normal {| success := true; message := "Successfully imported 1 tasks";
                  tasksImported := 1 |}).
Proof.
  split; [vm_compute; reflexivity |]. split; [vm_compute; reflexivity |].
  refine (proj1 (importTasks_merges_by_id backup_mixed
                   (VObj [("tasks", VArr [to_value task1'; to_value task2])])
                   [to_value task1'; to_value task2]
                   (Live 5242880 task1_items) (Live 5242880 task1_items)
                   [to_value task1] _ _ _ _)).
  - vm_compute. reflexivity.
  - reflexivity.
  - exists (to_value task2). split; [right; left; reflexivity | vm_compute; reflexivity].
  - vm_compute. reflexivity.
Defined.

Lemma importTasks_never_throws_witness :
  importTasks "not json" Blocked
  = (Blocked, Normal (import_failed "Failed to parse backup file"))
  /\ importTasks backup_incomplete empty_store
     = (empty_store, Normal (import_failed "No valid tasks found in backup")).
Proof.
  split.
  - destruct (importTasks_never_throws "not json" Blocked)
      as (w' & r & Hrun & Hfail & _).
    destruct (Hfail eq_refl) as [-> ->]. exact Hrun.
  - destruct (importTasks_never_throws backup_incomplete empty_store)
      as (w' & r & Hrun & _ & Hnone).
    destruct (Hnone (VObj [("tasks", VArr [VObj [("id", VStr "x")]])])
                [VObj [("id", VStr "x")]]) as [-> ->].
    + vm_compute. reflexivity.
    + reflexivity.
    + repeat constructor.
    + exact Hrun.
Defined.

Lemma importTasks_keeps_duplicates_of_backup_witness :
  prop (to_value task1) "id" = prop (to_value task1') "id"
  /\ importTasks backup_twice empty_store
     = (exec (saveTasks ([] ++ [to_value task1; to_value task1'])) empty_store,
        Normal {| success := true; message := "Successfully imported 2 tasks";
                  tasksImported := 2 |})
  /\ result getTasks (exec (importTasks backup_twice) empty_store)
     = Normal [to_value task1; to_value task1'].
Proof.
  split; [reflexivity |]. split; [| vm_compute; reflexivity].
  refine (proj1 (importTasks_keeps_duplicates_of_backup backup_twice
                   (VObj [("version", VStr "1.0");
                          ("tasks", VArr [to_value task1; to_value task1'])])
                   (to_value task1) (to_value task1') empty_store empty_store []
                   _ _ _ _ _ _ _)).
  - vm_compute. reflexivity.
  - reflexivity.
  - vm_compute. reflexivity.
  - vm_compute. reflexivity.
  - reflexivity.
  - vm_compute. reflexivity.
  - intros e [].
Defined.

End ImportSample.

(** ** The column: enter and leave counting, and the drop (C4, C6) *)

Section Column.
Context `{Host}.
Import Types KanbanColumn.

Lemma nonempty_true (s : string) : s <> EmptyString -> nonempty s = true.
Proof.
  intros Hne. unfold nonempty.
  destruct (String.eqb_spec s EmptyString); [contradiction | reflexivity].
Qed.

(** While the pointer stays over the column the counter tells how many
    enters have not been matched by a leave. *)
Lemma handleDragEnter_counts (c : State) :
  isDragOver (handleDragEnter c) = true
  /\ dragOverCounter (handleDragEnter c) = (dragOverCounter c + 1)%Z.
Proof. unfold handleDragEnter. destruct (isDragOver c); simpl; auto. Qed.

Lemma handleDragLeave_above_one (c : State) :
  (1 < dragOverCounter c)%Z ->
  handleDragLeave c
  = {| isDragOver := isDragOver c;
       dragOverCounter := (dragOverCounter c - 1)%Z;
       dragOverEffect := dragOverEffect c |}.
Proof.
  intros Hgt. unfold handleDragLeave.
  destruct (Z.leb_spec (dragOverCounter c - 1) 0); [lia | reflexivity].
Qed.

Lemma handleDragLeave_last (c : State) :
  (dragOverCounter c <= 1)%Z -> handleDragLeave c = initial.
Proof.
  intros Hle. unfold handleDragLeave.
  destruct (Z.leb_spec (dragOverCounter c - 1) 0); [reflexivity | lia].
Qed.

(** After [n] enters in a row the counter is at [n]; each leave but the last
    takes one off and keeps the highlight, and the last one clears it. *)
Lemma enters_in_a_row (n : nat) :
  isDragOver (Nat.iter (S n) handleDragEnter initial) = true
  /\ dragOverCounter (Nat.iter (S n) handleDragEnter initial) = Z.of_nat (S n).
Proof.
  induction n as [| n [_ IH]]; [split; reflexivity |].
  rewrite Nat.iter_succ.
  destruct (handleDragEnter_counts (Nat.iter (S n) handleDragEnter initial))
    as [Hover Hcount].
  split; [exact Hover |]. rewrite Hcount, IH. lia.
Qed.

Lemma leaves_but_last (n k : nat) :
  k <= n ->
  isDragOver (Nat.iter k handleDragLeave (Nat.iter (S n) handleDragEnter initial)) = true
  /\ dragOverCounter
       (Nat.iter k handleDragLeave (Nat.iter (S n) handleDragEnter initial))
     = Z.of_nat (S n - k).
Proof.
  induction k as [| k IH]; intros Hk.
  - rewrite Nat.sub_0_r. apply enters_in_a_row.
  - destruct IH as [Hover Hcount]; [lia |].
    rewrite Nat.iter_succ, handleDragLeave_above_one by (rewrite Hcount; lia).
    cbn [isDragOver dragOverCounter]. split; [exact Hover |].
    rewrite Hcount. lia.
Qed.

Lemma last_leave_clears (n : nat) :
  isDragOver
    (Nat.iter (S n) handleDragLeave (Nat.iter (S n) handleDragEnter initial)) = false
  /\ dragOverCounter
       (Nat.iter (S n) handleDragLeave (Nat.iter (S n) handleDragEnter initial)) = 0%Z.
Proof.
  destruct (leaves_but_last n n) as [_ Hcount]; [lia |].
  rewrite Nat.iter_succ, handleDragLeave_last by (rewrite Hcount; lia).
  split; reflexivity.
Qed.

(** C6.  From the idle column, two drag-enter events and one drag-leave
    event leave the column highlighted with the counter at 1; the second
    drag-leave clears the highlight and puts the counter back to 0. *)
Theorem two_enters_need_two_leaves :
  let entered := handleDragEnter (handleDragEnter initial) in
  let left_once := handleDragLeave entered in
  let left_twice := handleDragLeave left_once in
  isDragOver initial = false
  /\ dragOverCounter initial = 0%Z
  /\ dragOverCounter entered = 2%Z
  /\ isDragOver left_once = true
  /\ dragOverCounter left_once = 1%Z
  /\ isDragOver left_twice = false
  /\ dragOverCounter left_twice = 0%Z.
Proof. cbv. repeat split. Qed.

(** C4, as amended.  When the event carries a non-empty id and a non-empty
    payload, and the payload does not parse (or parses to [null], off which
    no status can be read), the handler calls [onDrop] once with the
    column's status.  When the id or the payload is empty it calls nothing. *)
Theorem handleDrop_falls_back_on_bad_payload
  (status : TaskStatus) (taskId taskData : string) (c : State) :
  (taskId <> EmptyString ->
   taskData <> EmptyString ->
   JSON_parse taskData = None \/ JSON_parse taskData = Some VNull ->
   snd (handleDrop status taskId taskData c) = [status])
  /\ (taskId = EmptyString \/ taskData = EmptyString ->
      snd (handleDrop status taskId taskData c) = []).
Proof.
  split.
  - intros Hid Hdata Hbad. unfold handleDrop, moved_to_other_column.
    rewrite (nonempty_true _ Hid), (nonempty_true _ Hdata).
    destruct Hbad as [-> | ->]; reflexivity.
  - intros [-> | ->]; unfold handleDrop; simpl; [reflexivity |].
    destruct (nonempty taskId); reflexivity.
Qed.

(** The column itself holds back a drop whose payload names the column's
    own status. *)
Lemma handleDrop_same_column_payload
  (status : TaskStatus) (taskId taskData : string) (c : State) (props : list (string * value)) :
  JSON_parse taskData = Some (VObj props) ->
  lookup_prop "status" props = VStr (status_string status) ->
  snd (handleDrop status taskId taskData c) = [].
Proof.
  intros Hparse Hstatus. unfold handleDrop, moved_to_other_column.
  destruct (nonempty taskId && nonempty taskData); [| reflexivity].
  rewrite Hparse. simpl. rewrite Hstatus. simpl. rewrite String.eqb_refl. reflexivity.
Qed.

End Column.

Section ColumnSample.
Import Types KanbanColumn Samples.
#[local] Existing Instance SampleHost.host.

Lemma handleDrop_falls_back_on_bad_payload_witness :
  snd (handleDrop Done "1" "{oops" initial) = [Done]
  /\ snd (handleDrop Done "1" EmptyString initial) = [].
Proof.
  split.
  - apply (proj1 (handleDrop_falls_back_on_bad_payload Done "1" "{oops" initial));
      [discriminate | discriminate | left; vm_compute; reflexivity].
  - apply (proj2 (handleDrop_falls_back_on_bad_payload Done "1" EmptyString initial)).
    right. reflexivity.
Defined.

(** C4 as it is stated fails for a payload that is absent: the text under
    [application/json] is then the empty string, which does not parse, and
    the handler makes no call to [onDrop]. *)
Lemma handleDrop_absent_payload_is_silent :
  JSON_parse EmptyString = None
  /\ snd (handleDrop Done "1" EmptyString initial) <> [Done]
  /\ handleDrop Done "1" EmptyString initial = (initial, []).
Proof. split; [reflexivity |]. split; [discriminate | reflexivity]. Qed.

End ColumnSample.

(** ** The form and the board (C5, C8, C9) *)

Section Board.
Import Types KanbanBoard.

Lemma status_eqb_eq (a b : TaskStatus) : status_eqb a b = true <-> a = b.
Proof. destruct a, b; split; intros Heq; try reflexivity; discriminate Heq. Qed.

Lemma trimStart_blank (s : string) :
  Forall (fun c => TaskForm.is_space c = true) (list_ascii_of_string s) ->
  TaskForm.trimStart s = EmptyString.
Proof.
  induction s as [| c s IH]; simpl; [reflexivity |].
  intros Hall. apply Forall_cons_1 in Hall as [Hc Hs]. rewrite Hc. auto.
Qed.

Lemma trimStart_empty (s : string) :
  TaskForm.trimStart s = EmptyString ->
  Forall (fun c => TaskForm.is_space c = true) (list_ascii_of_string s).
Proof.
  induction s as [| c s IH]; simpl; [constructor |].
  destruct (TaskForm.is_space c) eqn:Hc; [| discriminate].
  intros Hs. constructor; auto.
Qed.

(** What [trimStart] returns is empty or starts with a character that is
    not white space. *)
Lemma trimStart_head (s : string) :
  match TaskForm.trimStart s with
  | EmptyString => True
  | String c _ => TaskForm.is_space c = false
  end.
Proof.
  induction s as [| c s IH]; simpl; [exact I |].
  destruct (TaskForm.is_space c) eqn:Hc; [exact IH | exact Hc].
Qed.

Lemma reverse_empty (s : string) :
  TaskForm.reverse s = EmptyString -> s = EmptyString.
Proof.
  unfold TaskForm.reverse. intros Hrev.
  destruct s as [| c s]; [reflexivity |]. exfalso.
  apply (f_equal list_ascii_of_string) in Hrev.
  rewrite list_ascii_of_string_of_list_ascii in Hrev. cbn in Hrev.
  apply (f_equal (@length ascii)) in Hrev. rewrite length_app in Hrev.
  cbn in Hrev. lia.
Qed.

(** A title is empty once trimmed exactly when it is made of white space. *)
Lemma trim_empty_iff (s : string) :
  TaskForm.trim s = EmptyString
  <-> Forall (fun c => TaskForm.is_space c = true) (list_ascii_of_string s).
Proof.
  split.
  - unfold TaskForm.trim. intros Htrim. apply reverse_empty in Htrim.
    apply trimStart_empty in Htrim.
    pose proof (trimStart_head s) as Hhead.
    destruct (TaskForm.trimStart s) as [| c rest] eqn:Hstart.
    + apply trimStart_empty. exact Hstart.
    + exfalso. unfold TaskForm.reverse in Htrim.
      rewrite list_ascii_of_string_of_list_ascii in Htrim.
      rewrite Forall_forall in Htrim.
      assert (Hc : TaskForm.is_space c = true).
      { apply Htrim. apply list_elem_of_In, in_rev. rewrite rev_involutive.
        left. reflexivity. }
      congruence.
  - intros Hall. unfold TaskForm.trim. rewrite (trimStart_blank s Hall). reflexivity.
Qed.

(** A title made of white space only is empty once trimmed. *)
Lemma trim_blank (s : string) :
  Forall (fun c => TaskForm.is_space c = true) (list_ascii_of_string s) ->
  TaskForm.trim s = EmptyString.
Proof.
  intros Hall. unfold TaskForm.trim. rewrite (trimStart_blank s Hall). reflexivity.
Qed.

(** [addTask] itself appends whatever title it is given. *)
Lemma addTask_appends (fr : Fresh) (title description : string) (b : State) :
  length (tasks (addTask fr title description b)) = S (length (tasks b)).
Proof. unfold addTask. simpl. rewrite length_app. simpl. lia. Qed.

(** C5.  Adding a task with a title that is empty once trimmed, whatever
    the description, is a no-op.  The board's [addTask] is reached through
    the form only ([<TaskForm onAddTask={addTask} />]), and for such a title
    [handleSubmit] returns before it calls [onAddTask]: no task is created,
    and the list of tasks, the board and the form stay as they are. *)
Theorem blank_title_is_stopped_by_the_form
  (fr : Fresh) (f : TaskForm.State) (b : State) :
  TaskForm.trim (TaskForm.title f) = EmptyString ->
  snd (TaskForm.handleSubmit f) = None
  /\ submit fr f b = (f, b)
  /\ tasks (snd (submit fr f b)) = tasks b.
Proof.
  intros Hblank. unfold submit, TaskForm.handleSubmit. rewrite Hblank.
  repeat split.
Qed.

(** What [handleDrop] does, by cases on the dragged task. *)
Lemma handleDrop_cases (column : TaskStatus) (b : State) :
  match draggedTask b with
  | Some dragged =>
      if status_eqb (status dragged) column
      then handleDrop column b = ({| tasks := tasks b; draggedTask := None |}, [])
      else handleDrop column b
           = ({| tasks := tasks (updateTaskStatus (id dragged) column b);
                 draggedTask := None |},
              [(id dragged, column)])
  | None => handleDrop column b = ({| tasks := tasks b; draggedTask := None |}, [])
  end.
Proof.
  unfold handleDrop. destruct (draggedTask b) as [dragged |]; [| reflexivity].
  destruct (status_eqb (status dragged) column); reflexivity.
Qed.

(** C8.  With a task being dragged, a drop on the column of the task's own
    status makes no call to [updateTaskStatus] and leaves the list of tasks
    as it is, whatever the event carries; and whenever a drop does make a
    call, the column differs from the dragged task's status and the call is
    for that task and that column. *)
Theorem drop_on_own_column_changes_nothing `{Host}
  (column : TaskStatus) (taskId taskData : string)
  (c c' : KanbanColumn.State) (b b' : State) (dragged : Task)
  (calls : list (string * TaskStatus)) :
  draggedTask b = Some dragged ->
  drop column taskId taskData c b = (c', b', calls) ->
  (status dragged = column -> calls = [] /\ tasks b' = tasks b)
  /\ (calls <> [] -> status dragged <> column /\ calls = [(id dragged, column)]).
Proof.
  intros Hdragged Hdrop. unfold drop in Hdrop.
  destruct (KanbanColumn.handleDrop column taskId taskData c) as [c1 onDrops] eqn:Hcol.
  assert (Hshape : onDrops = [] \/ onDrops = [column]).
  { unfold KanbanColumn.handleDrop in Hcol.
    destruct (_ && _) in Hcol; [| injection Hcol as _ <-; auto].
    destruct (KanbanColumn.moved_to_other_column taskData column) as [[] | e];
      injection Hcol as _ <-; auto. }
  destruct Hshape as [-> | ->]; simpl in Hdrop.
  - injection Hdrop as _ <- <-. split; [auto | congruence].
  - pose proof (handleDrop_cases column b) as Hcases. rewrite Hdragged in Hcases.
    destruct (status_eqb (status dragged) column) eqn:Hsame;
      rewrite Hcases in Hdrop; injection Hdrop as _ <- <-.
    + split; [auto | congruence].
    + split.
      * intros Heq. apply status_eqb_eq in Heq. congruence.
      * intros _. split; [| reflexivity].
        intros Heq. apply status_eqb_eq in Heq. congruence.
Qed.

(** C9.  [updateTaskStatus] keeps the length and the order of the list; the
    task at each place keeps its id, title, description and creation time,
    and takes the new status exactly when its id is the given one; a task
    with another id is kept whole, and so is the list when no id matches. *)
Theorem updateTaskStatus_changes_status_only
  (taskId : string) (newStatus : TaskStatus) (b : State) :
  let b' := updateTaskStatus taskId newStatus b in
  length (tasks b') = length (tasks b)
  /\ (forall i task,
        nth_error (tasks b) i = Some task ->
        exists task',
          nth_error (tasks b') i = Some task'
          /\ id task' = id task
          /\ title task' = title task
          /\ description task' = description task
          /\ createdAt task' = createdAt task
          /\ status task' = if String.eqb (id task) taskId then newStatus else status task)
  /\ (forall i task,
        nth_error (tasks b) i = Some task ->
        id task <> taskId ->
        nth_error (tasks b') i = Some task)
  /\ ((forall task, In task (tasks b) -> id task <> taskId) -> tasks b' = tasks b)
  /\ draggedTask b' = draggedTask b.
Proof.
  intros b'. subst b'. unfold updateTaskStatus. cbn [tasks draggedTask].
  split; [apply length_map |]. split; [| split; [| split; [| reflexivity]]].
  - intros i task Hnth. rewrite nth_error_map, Hnth. cbn [option_map].
    eexists. split; [reflexivity |].
    destruct (String.eqb (id task) taskId); cbn; repeat split.
  - intros i task Hnth Hother. rewrite nth_error_map, Hnth. cbn [option_map].
    destruct (String.eqb_spec (id task) taskId); [contradiction | reflexivity].
  - intros Hnone. induction (tasks b) as [| t l IH]; [reflexivity |].
    cbn [List.map]. rewrite IH by (intros task Hin; apply Hnone; right; exact Hin).
    destruct (String.eqb_spec (id t) taskId) as [Heq | _]; [| reflexivity].
    exfalso. apply (Hnone t); [left; reflexivity | exact Heq].
Qed.

End Board.

Section BoardSample.
Import Types KanbanBoard Samples.
#[local] Existing Instance SampleHost.host.

Lemma blank_title_is_stopped_by_the_form_witness :
  submit sample_fresh
    {| TaskForm.title := "   "; TaskForm.description := "desc";
       TaskForm.isSubmitting := false |}
    empty_board
  = ({| TaskForm.title := "   "; TaskForm.description := "desc";
        TaskForm.isSubmitting := false |},
     empty_board).
Proof.
  apply (fun h =>
           proj1 (proj2 (blank_title_is_stopped_by_the_form sample_fresh
                           {| TaskForm.title := "   "; TaskForm.description := "desc";
                              TaskForm.isSubmitting := false |} empty_board h))).
  reflexivity.
Defined.

Lemma drop_on_own_column_changes_nothing_witness :
  drop Todo "1" (JSON_stringify (to_value task1)) KanbanColumn.initial sample_board
  = (KanbanColumn.initial, sample_board, [])
  /\ drop Todo "1" "{oops" KanbanColumn.initial sample_board
     = (KanbanColumn.initial, {| tasks := [task1; task2]; draggedTask := None |}, [])
  /\ snd (drop Done "1" (JSON_stringify (to_value task1)) KanbanColumn.initial sample_board)
     = [("1", Done)].
Proof.
  assert (Hbad : drop Todo "1" "{oops" KanbanColumn.initial sample_board
                 = (KanbanColumn.initial,
                    {| tasks := [task1; task2]; draggedTask := None |}, []))
    by (vm_compute; reflexivity).
  split; [vm_compute; reflexivity |]. split; [exact Hbad |].
  destruct (drop Done "1" (JSON_stringify (to_value task1)) KanbanColumn.initial sample_board)
    as [[c' b'] calls] eqn:Hdrop.
  destruct (drop_on_own_column_changes_nothing Done "1" (JSON_stringify (to_value task1))
              KanbanColumn.initial c' sample_board b' task1 calls eq_refl Hdrop)
    as [_ Honly].
  assert (Hcalls : calls <> []).
  { intros ->. vm_compute in Hdrop. discriminate Hdrop. }
  exact (proj2 (Honly Hcalls)).
Defined.

Lemma updateTaskStatus_changes_status_only_witness :
  tasks (updateTaskStatus "1" Done sample_board)
  = [{| id := "1"; title := "Write report"; description := "First draft";
        status := Done; createdAt := "2024-01-15T10:30:00.000Z" |};
     task2]
  /\ nth_error (tasks (updateTaskStatus "1" Done sample_board)) 1 = Some task2
  /\ tasks (updateTaskStatus "9" Done sample_board) = tasks sample_board.
Proof.
  split; [reflexivity |]. split.
  - apply (proj1 (proj2 (proj2 (updateTaskStatus_changes_status_only "1" Done sample_board)))
             1 task2); [reflexivity | discriminate].
  - apply (proj1 (proj2 (proj2 (proj2
             (updateTaskStatus_changes_status_only "9" Done sample_board))))).
    intros task [<- | [<- | []]]; discriminate.
Defined.

End BoardSample.

(** * Further properties of the persistence service *)

Section StorageMore.
Context `{Host}.
Import StorageService.

Lemma filter_length_all {A} (p : A -> bool) (l : list A) :
  length (List.filter p l) = length l -> forallb p l = true.
Proof.
  induction l as [| a l IH]; simpl; [reflexivity |].
  destruct (p a); simpl; intros Hlen.
  - apply IH. lia.
  - pose proof (filter_length_le p l). lia.
Qed.

(** [getTasks] on a store that can be read, by cases on what it holds. *)
Lemma getTasks_Live_unfold (quota : N) (items : gmap string string) :
  getTasks (Live quota items)
  = let cleared := Live quota (delete VERSION_KEY (delete STORAGE_KEY items)) in
    if version_mismatch (items !! VERSION_KEY) then (cleared, Normal [])
    else if not_stored (items !! STORAGE_KEY) then (Live quota items, Normal [])
    else
      match JSON_parse (text_of (items !! STORAGE_KEY)) with
      | Some (VArr elems) =>
          let validTasks := List.filter isValidTask elems in
          if Nat.eqb (length validTasks) (length elems)
          then (Live quota items, Normal validTasks)
          else (exec (saveTasks validTasks) (Live quota items), Normal validTasks)
      | _ => (cleared, Normal [])
      end.
Proof.
  unfold getTasks, try_catch, bind, window_undefined.
  rewrite getItem_Live.
  destruct (version_mismatch (items !! VERSION_KEY)); [reflexivity |].
  cbv beta iota zeta. rewrite getItem_Live.
  destruct (not_stored (items !! STORAGE_KEY)); [reflexivity |].
  cbv beta iota. unfold JSON_parse_stmt.
  destruct (JSON_parse (text_of (items !! STORAGE_KEY))) as [parsed |]; [| reflexivity].
  unfold ret at 1. cbv beta iota.
  destruct parsed as [| | b | n | s | elems | props]; try reflexivity.
  destruct (Nat.eqb (length (List.filter isValidTask elems)) (length elems));
    cbn [negb]; [reflexivity |].
  unfold exec.
  destruct (saveTasks_normal (List.filter isValidTask elems) (Live quota items))
    as [w' Hsave].
  rewrite Hsave. reflexivity.
Qed.

(** Where [saveTasks] leaves a store that can be written, by cases on the
    room it has. *)
Lemma saveTasks_Live_cases (tasks : list value) (quota : N) (items : gmap string string) :
  exec (saveTasks tasks) (Live quota items)
  = let text := JSON_stringify (VArr (List.filter isValidTask tasks)) in
    if (usage (<[STORAGE_KEY := text]> items) <=? quota)%N then
      if (usage (<[VERSION_KEY := STORAGE_VERSION]> (<[STORAGE_KEY := text]> items))
          <=? quota)%N
      then Live quota (<[VERSION_KEY := STORAGE_VERSION]> (<[STORAGE_KEY := text]> items))
      else Live quota (<[STORAGE_KEY := text]> items)
    else Live quota items.
Proof.
  unfold exec, saveTasks, try_catch, bind, window_undefined. cbv zeta.
  unfold setItem at 1.
  destruct (usage (<[STORAGE_KEY := _]> items) <=? quota)%N; [| reflexivity].
  unfold setItem.
  destruct (usage (<[VERSION_KEY := _]> _) <=? quota)%N; reflexivity.
Qed.

(** As [getTasks_Live_valid], for any version marker that passes the gate. *)
Lemma getTasks_Live_settled (quota : N) (items : gmap string string)
  (text : string) (elems : list value) :
  version_mismatch (items !! VERSION_KEY) = false ->
  items !! STORAGE_KEY = Some text ->
  text <> EmptyString ->
  JSON_parse text = Some (VArr elems) ->
  forallb isValidTask elems = true ->
  getTasks (Live quota items) = (Live quota items, Normal elems).
Proof.
  intros Hver Hsto Hne Hparse Hvalid.
  rewrite getTasks_Live_unfold. cbv zeta. rewrite Hver, Hsto.
  unfold not_stored, text_of.
  destruct (String.eqb_spec text EmptyString); [contradiction |].
  rewrite Hparse, (filter_all_true _ _ Hvalid), Nat.eqb_refl. reflexivity.
Qed.

(** X1.  Whatever the world, [getTasks] ends normally, and every task it
    returns is valid in the words of the specification. *)
Theorem getTasks_returns_only_valid (w : World) :
  exists w' tasks,
    getTasks w = (w', Normal tasks)
    /\ forall task, In task tasks -> valid_per_spec task.
Proof.
  destruct (getTasks_normal w) as (w' & tasks & Hget & Hall).
  exists w', tasks. split; [exact Hget |].
  intros task Hin. apply isValidTask_iff.
  rewrite forallb_forall in Hall. apply Hall, Hin.
Qed.

(** X2.  A stored text that does not parse, or that parses to something
    other than an array, makes [getTasks] remove the collection and the
    version marker and return the empty list. *)
Theorem getTasks_heals_corrupt_store
  (quota : N) (items : gmap string string) (text : string) :
  items !! STORAGE_KEY = Some text ->
  text <> EmptyString ->
  JSON_parse text = None
  \/ (exists v, JSON_parse text = Some v /\ isArray v = false) ->
  getTasks (Live quota items)
  = (Live quota (delete VERSION_KEY (delete STORAGE_KEY items)), Normal []).
Proof.
  intros Hsto Hne Hbad.
  rewrite getTasks_Live_unfold. cbv zeta.
  destruct (version_mismatch (items !! VERSION_KEY)); [reflexivity |].
  rewrite Hsto. unfold not_stored, text_of.
  destruct (String.eqb_spec text EmptyString); [contradiction |].
  destruct Hbad as [-> | (v & -> & Hv)]; [reflexivity |].
  destruct v; try reflexivity. discriminate Hv.
Qed.

(** X3.  When the stored array holds an invalid element and the store takes
    the two writes, [getTasks] returns the valid elements in their order and
    leaves the store holding their text under the current version marker. *)
Theorem getTasks_rewrites_cleaned_store
  (quota : N) (items : gmap string string) (text : string) (elems : list value) :
  version_mismatch (items !! VERSION_KEY) = false ->
  items !! STORAGE_KEY = Some text ->
  text <> EmptyString ->
  JSON_parse text = Some (VArr elems) ->
  (exists task, In task elems /\ isValidTask task = false) ->
  (usage (<[STORAGE_KEY :=
              JSON_stringify (VArr (List.filter isValidTask elems))]> items)
     <= quota)%N ->
  (usage (saved elems items) <= quota)%N ->
  getTasks (Live quota items)
  = (Live quota (saved elems items), Normal (List.filter isValidTask elems)).
Proof.
  intros Hver Hsto Hne Hparse (bad & Hin & Hbad) Hfit1 Hfit2.
  rewrite getTasks_Live_unfold. cbv zeta. rewrite Hver, Hsto.
  unfold not_stored, text_of.
  destruct (String.eqb_spec text EmptyString); [contradiction |].
  rewrite Hparse.
  destruct (Nat.eqb_spec (length (List.filter isValidTask elems)) (length elems))
    as [Hlen | _].
  { apply filter_length_all in Hlen. rewrite forallb_forall in Hlen.
    rewrite (Hlen bad Hin) in Hbad. discriminate Hbad. }
  unfold exec. rewrite saveTasks_Live.
  - unfold saved. rewrite filter_filter_same. reflexivity.
  - rewrite filter_filter_same. exact Hfit1.
  - unfold saved. rewrite filter_filter_same. exact Hfit2.
Qed.

(** X4.  Loading is stable: on a host whose JSON reader gives back the
    array of the tasks just loaded (and rejects the empty text), loading
    again from the world that the first load left returns the same tasks and
    changes nothing. *)
Theorem getTasks_twice (w w1 : World) (tasks : list value) :
  getTasks w = (w1, Normal tasks) ->
  JSON_parse EmptyString = None ->
  JSON_parse (JSON_stringify (VArr tasks)) = Some (VArr tasks) ->
  getTasks w1 = (w1, Normal tasks).
Proof.
  intros Hget Hempty Hround.
  assert (Htext : JSON_stringify (VArr tasks) <> EmptyString)
    by (intros Hnil; rewrite Hnil in Hround; congruence).
  destruct w as [| | quota items];
    [injection Hget as <- <-; reflexivity .. |].
  rewrite getTasks_Live_unfold in Hget. cbv zeta in Hget.
  assert (Hcleared :
            getTasks (Live quota (delete VERSION_KEY (delete STORAGE_KEY items)))
            = (Live quota (delete VERSION_KEY (delete STORAGE_KEY items)), Normal [])).
  { rewrite getTasks_Live_unfold. cbv zeta.
    rewrite lookup_delete_eq.
    rewrite lookup_delete_ne by (apply not_eq_sym, keys_differ).
    rewrite lookup_delete_eq. reflexivity. }
  destruct (version_mismatch (items !! VERSION_KEY)) eqn:Hver;
    [injection Hget as <- <-; exact Hcleared |].
  destruct (not_stored (items !! STORAGE_KEY)) eqn:Hsto.
  { injection Hget as <- <-. rewrite getTasks_Live_unfold. cbv zeta.
    rewrite Hver, Hsto. reflexivity. }
  destruct (JSON_parse (text_of (items !! STORAGE_KEY))) as [parsed |] eqn:Hparse;
    [| injection Hget as <- <-; exact Hcleared].
  destruct parsed as [| | b | n | s | elems | props];
    try (injection Hget as <- <-; exact Hcleared).
  destruct (Nat.eqb (length (List.filter isValidTask elems)) (length elems)) eqn:Hlen.
  { injection Hget as <- <-. rewrite getTasks_Live_unfold. cbv zeta.
    rewrite Hver, Hsto, Hparse, Hlen. reflexivity. }
  injection Hget as <- <-.
  set (valid := List.filter isValidTask elems) in *.
  assert (Hvalid : forallb isValidTask valid = true) by apply forallb_filter.
  assert (Hagain : List.filter isValidTask valid = valid)
    by (apply filter_all_true; exact Hvalid).
  rewrite saveTasks_Live_cases. cbv zeta. rewrite Hagain.
  destruct (usage (<[STORAGE_KEY := JSON_stringify (VArr valid)]> items) <=? quota)%N
    eqn:Hfit1.
  2:{ unfold valid in *. rewrite getTasks_Live_unfold. cbv zeta.
      rewrite Hver, Hsto, Hparse, Hlen.
      rewrite saveTasks_Live_cases. cbv zeta. rewrite Hagain, Hfit1. reflexivity. }
  destruct (usage (<[VERSION_KEY := STORAGE_VERSION]>
                     (<[STORAGE_KEY := JSON_stringify (VArr valid)]> items)) <=? quota)%N.
  - apply getTasks_Live_settled with (text := JSON_stringify (VArr valid)); auto.
    + rewrite lookup_insert_eq. reflexivity.
    + rewrite lookup_insert_ne by (apply not_eq_sym, keys_differ).
      apply lookup_insert_eq.
  - apply getTasks_Live_settled with (text := JSON_stringify (VArr valid)); auto.
    + rewrite lookup_insert_ne by apply keys_differ. exact Hver.
    + apply lookup_insert_eq.
Qed.

(** X5.  After [clearTasks], whatever the world, a load returns the empty
    list and changes nothing, neither entry is left to read, and clearing
    again changes nothing. *)
Theorem clearTasks_leaves_nothing_to_load (w : World) :
  let w' := exec clearTasks w in
  getTasks w' = (w', Normal [])
  /\ peek STORAGE_KEY w' = None
  /\ peek VERSION_KEY w' = None
  /\ exec clearTasks w' = w'.
Proof.
  destruct w as [| | quota items]; cbv zeta; [repeat split .. |].
  unfold exec. rewrite clearTasks_Live. cbn [fst peek].
  assert (Hs : delete VERSION_KEY (delete STORAGE_KEY items) !! STORAGE_KEY = None).
  { rewrite lookup_delete_ne by (apply not_eq_sym, keys_differ).
    apply lookup_delete_eq. }
  assert (Hv : delete VERSION_KEY (delete STORAGE_KEY items) !! VERSION_KEY = None)
    by apply lookup_delete_eq.
  split; [| split; [exact Hs | split; [exact Hv |]]].
  - rewrite getTasks_Live_unfold. cbv zeta. rewrite Hv, Hs. reflexivity.
  - rewrite clearTasks_Live. cbn [fst]. f_equal.
    rewrite (delete_id _ STORAGE_KEY) by exact Hs.
    apply delete_id. exact Hv.
Qed.

End StorageMore.

Section StorageFrame.
Context `{Host}.
Import StorageService.

Lemma differs_refl (w : World) : differs_in_tasks_only w w.
Proof. destruct w; simpl; auto. Qed.

Lemma differs_trans (w1 w2 w3 : World) :
  differs_in_tasks_only w1 w2 -> differs_in_tasks_only w2 w3 ->
  differs_in_tasks_only w1 w3.
Proof.
  destruct w1, w2, w3; simpl; try tauto.
  intros [-> H12] [-> H23]. split; [reflexivity |].
  intros k Hs Hv. rewrite H23, H12 by assumption. reflexivity.
Qed.

Lemma differs_insert (quota : N) (items : gmap string string) (k v : string) :
  k = STORAGE_KEY \/ k = VERSION_KEY ->
  differs_in_tasks_only (Live quota items) (Live quota (<[k := v]> items)).
Proof.
  intros Hk. split; [reflexivity |]. intros j Hs Hv.
  apply lookup_insert_ne. destruct Hk; congruence.
Qed.

Lemma differs_cleared (quota : N) (items : gmap string string) :
  differs_in_tasks_only (Live quota items)
    (Live quota (delete VERSION_KEY (delete STORAGE_KEY items))).
Proof.
  split; [reflexivity |]. intros j Hs Hv.
  rewrite !lookup_delete_ne by congruence. reflexivity.
Qed.

Lemma clearTasks_differs (w : World) : differs_in_tasks_only w (exec clearTasks w).
Proof.
  destruct w as [| | quota items]; [exact I .. |].
  unfold exec. rewrite clearTasks_Live. apply differs_cleared.
Qed.

Lemma saveTasks_differs (tasks : list value) (w : World) :
  differs_in_tasks_only w (exec (saveTasks tasks) w).
Proof.
  destruct w as [| | quota items]; [exact I .. |].
  rewrite saveTasks_Live_cases. cbv zeta.
  destruct (_ <=? quota)%N; [| apply differs_refl].
  destruct (_ <=? quota)%N.
  - eapply differs_trans; apply differs_insert; auto.
  - apply differs_insert. auto.
Qed.

Lemma getTasks_differs (w : World) : differs_in_tasks_only w (exec getTasks w).
Proof.
  destruct w as [| | quota items]; [exact I .. |].
  unfold exec. rewrite getTasks_Live_unfold. cbv zeta.
  destruct (version_mismatch _); [apply differs_cleared |].
  destruct (not_stored _); [apply differs_refl |].
  destruct (JSON_parse _) as [[| | b | n | s | elems | props] |];
    try apply differs_cleared.
  destruct (Nat.eqb _ _); [apply differs_refl |].
  apply saveTasks_differs.
Qed.

(** The world that [importTasks] leaves is the one it found, or the one
    that a save leaves after a load. *)
Lemma importTasks_world (jsonData : string) (w : World) :
  exec (importTasks jsonData) w = w
  \/ exists merged,
      exec (importTasks jsonData) w = exec (saveTasks merged) (exec getTasks w).
Proof.
  unfold exec at 1 2.
  remember (importTasks jsonData w) as r eqn:Hr.
  unfold importTasks, try_catch, bind, JSON_parse_stmt in Hr.
  destruct (JSON_parse jsonData) as [data |]; [| left; subst r; reflexivity].
  destruct data as [| | b | n | s | elems | props]; try (left; subst r; reflexivity).
  unfold ret at 1, member in Hr. cbv beta iota in Hr.
  unfold ret at 1 in Hr. cbv beta iota in Hr.
  destruct (negb (truthy (prop (VObj props) "tasks"))
            || negb (isArray (prop (VObj props) "tasks")));
    [left; subst r; reflexivity |].
  destruct (Nat.eqb _ 0); [left; subst r; reflexivity |].
  destruct (getTasks_normal w) as (w1 & existing & Hget & _).
  rewrite Hget in Hr. cbv beta iota zeta in Hr.
  match type of Hr with
  | context [saveTasks ?l w1] =>
      destruct (saveTasks_normal l w1) as [w2 Hsave]; rewrite Hsave in Hr;
      right; exists l
  end.
  subst r. unfold exec. rewrite Hget. cbn [fst]. rewrite Hsave. reflexivity.
Qed.

(** X6.  The service keeps to its two entries: clearing, saving, loading and
    importing leave the kind of world and the quota as they were, and every
    key other than "kanban-tasks" and "kanban-version" with the string it
    had. *)
Theorem service_touches_its_two_keys_only
  (tasks : list value) (jsonData : string) (w : World) (k : string) :
  k <> STORAGE_KEY ->
  k <> VERSION_KEY ->
  (differs_in_tasks_only w (exec clearTasks w)
   /\ peek k (exec clearTasks w) = peek k w)
  /\ (differs_in_tasks_only w (exec (saveTasks tasks) w)
      /\ peek k (exec (saveTasks tasks) w) = peek k w)
  /\ (differs_in_tasks_only w (exec getTasks w)
      /\ peek k (exec getTasks w) = peek k w)
  /\ (differs_in_tasks_only w (exec (importTasks jsonData) w)
      /\ peek k (exec (importTasks jsonData) w) = peek k w).
Proof.
  intros Hs Hv.
  assert (Hpeek : forall w', differs_in_tasks_only w w' -> peek k w' = peek k w).
  { intros w' Hd. destruct w, w'; simpl in Hd |- *; try tauto.
    destruct Hd as [_ Hd]. apply Hd; assumption. }
  assert (Himport : differs_in_tasks_only w (exec (importTasks jsonData) w)).
  { destruct (importTasks_world jsonData w) as [-> | (merged & ->)].
    - apply differs_refl.
    - eapply differs_trans; [apply getTasks_differs | apply saveTasks_differs]. }
  pose proof (clearTasks_differs w). pose proof (saveTasks_differs tasks w).
  pose proof (getTasks_differs w).
  repeat split; auto.
Qed.

Lemma usage_insert_fresh (items : gmap string string) (k v : string) :
  items !! k = None ->
  usage (<[k := v]> items)
  = (N.of_nat (String.length k) + N.of_nat (String.length v) + usage items)%N.
Proof.
  intros Hfresh. unfold usage.
  apply (map_fold_insert_L
           (fun k v acc => (N.of_nat (String.length k) + N.of_nat (String.length v) + acc)%N));
    [| exact Hfresh].
  intros. lia.
Qed.

(** X7.  [isStorageAvailable] never throws.  Without a [window], or with a
    store that refuses access, it answers false.  On a store that can be
    read and does not hold the probe key it leaves the store as it was, and
    answers true exactly when the store has room for the 32 characters of
    the probe: a store with less room is reported unavailable. *)
Theorem isStorageAvailable_needs_room_for_probe :
  isStorageAvailable NoWindow = (NoWindow, Normal false)
  /\ isStorageAvailable Blocked = (Blocked, Normal false)
  /\ forall quota items,
       items !! probe_key = None ->
       isStorageAvailable (Live quota items)
       = (Live quota items, Normal (usage items + 32 <=? quota)%N).
Proof.
  split; [reflexivity |]. split; [reflexivity |].
  intros quota items Hfresh.
  unfold isStorageAvailable, try_catch, bind, window_undefined, setItem.
  fold probe_key. rewrite (usage_insert_fresh _ _ _ Hfresh).
  change (N.of_nat (String.length probe_key)) with 16%N.
  replace (16 + 16 + usage items)%N with (usage items + 32)%N by lia.
  destruct (usage items + 32 <=? quota)%N; [| reflexivity].
  unfold removeItem. cbn [ret].
  rewrite delete_insert_eq, delete_id by exact Hfresh. reflexivity.
Qed.

End StorageFrame.

Section ImportMore.
Context `{Host}.
Import StorageService.

(** X8.  A document that parses to [null] is reported as a parse failure,
    and a document that is not [null] and whose [tasks] is not an array is
    reported as "Invalid backup format"; in both cases nothing is imported
    and the world is left as it was. *)
Theorem importTasks_rejects_other_shapes (jsonData : string) (w : World) :
  (JSON_parse jsonData = Some VNull ->
   importTasks jsonData w = (w, Normal (import_failed "Failed to parse backup file")))
  /\ (forall data,
        JSON_parse jsonData = Some data ->
        data <> VNull ->
        data <> VUndefined ->
        isArray (prop data "tasks") = false ->
        importTasks jsonData w = (w, Normal (import_failed "Invalid backup format"))).
Proof.
  split.
  - intros Hparse. unfold importTasks, try_catch, bind, JSON_parse_stmt.
    rewrite Hparse. reflexivity.
  - intros data Hparse Hnull Hundef Hshape.
    unfold importTasks, try_catch, bind, JSON_parse_stmt. rewrite Hparse.
    unfold ret at 1, member. cbv beta iota.
    destruct data as [| | b | n | s | elems | props]; try contradiction;
      try reflexivity.
    unfold ret at 1. cbv beta iota. rewrite Hshape, orb_true_r. reflexivity.
Qed.

Lemma Set_has_app (ids1 ids2 : list value) (v : value) :
  Set_has (ids1 ++ ids2) v = Set_has ids1 v || Set_has ids2 v.
Proof. unfold Set_has. apply existsb_app. Qed.

(** Once the appended tasks are among the existing ones, the same backup
    has nothing left to append. *)
Lemma appended_after_merge (existing imported : list value) :
  appended (existing ++ appended existing imported) imported = [].
Proof.
  set (merged := existing ++ appended existing imported).
  unfold appended at 1.
  assert (Hnone : forall task,
            In task (List.filter isValidTask imported) ->
            negb (Set_has (List.map (fun e => prop e "id") merged) (prop task "id"))
            = false).
  { intros task Hin. apply negb_false_iff.
    pose proof Hin as Hv. apply filter_In in Hv as [_ Hv].
    unfold merged. rewrite map_app, Set_has_app.
    destruct (Set_has (List.map (fun e => prop e "id") existing) (prop task "id"))
      eqn:Htaken; [reflexivity |].
    cbn [orb]. apply (id_taken_iff _ task Hv). exists task. split; [| reflexivity].
    unfold appended. apply filter_In. split; [exact Hin |].
    rewrite Htaken. reflexivity. }
  induction (List.filter isValidTask imported) as [| t l IH]; [reflexivity |].
  cbn [List.filter]. rewrite (Hnone t) by (left; reflexivity).
  apply IH. intros task Hin. apply Hnone. right. exact Hin.
Qed.

(** X9.  Importing the same backup a second time adds nothing: when the
    store took the writes of the first import and the host's JSON reader
    gives back the merged array, the second import reports success with 0
    tasks and leaves the store as the first import left it. *)
Theorem importTasks_again_adds_nothing
  (jsonData : string) (data : value) (imported : list value)
  (w : World) (quota : N) (items1 : gmap string string) (existing : list value) :
  JSON_parse jsonData = Some data ->
  prop data "tasks" = VArr imported ->
  (exists task, In task imported /\ isValidTask task = true) ->
  getTasks w = (Live quota items1, Normal existing) ->
  let merged := existing ++ appended existing imported in
  JSON_parse EmptyString = None ->
  JSON_parse (JSON_stringify (VArr merged)) = Some (VArr merged) ->
  (usage (<[STORAGE_KEY := JSON_stringify (VArr merged)]> items1) <= quota)%N ->
  (usage (<[VERSION_KEY := STORAGE_VERSION]>
            (<[STORAGE_KEY := JSON_stringify (VArr merged)]> items1)) <= quota)%N ->
  let w2 := exec (importTasks jsonData) w in
  importTasks jsonData w2
  = (w2, Normal {| success := true; message := "Successfully imported 0 tasks";
                   tasksImported := 0 |}).
Proof.
  intros Hparse Htasks (t0 & Hin0 & Hv0) Hget merged Hempty Hround Hfit1 Hfit2 w2.
  assert (Hsome : List.filter isValidTask imported <> []).
  { intros Hnil. assert (Hf : In t0 (List.filter isValidTask imported))
      by (apply filter_In; auto).
    rewrite Hnil in Hf. destruct Hf. }
  assert (Hex : forallb isValidTask existing = true).
  { destruct (getTasks_normal w) as (w' & l & Hg & Hall).
    rewrite Hget in Hg. injection Hg as _ <-. exact Hall. }
  assert (Hmerged : forallb isValidTask merged = true).
  { unfold merged. rewrite forallb_app, Hex. apply appended_valid. }
  set (stored := <[VERSION_KEY := STORAGE_VERSION]>
                   (<[STORAGE_KEY := JSON_stringify (VArr merged)]> items1)).
  assert (Hw2 : w2 = Live quota stored).
  { unfold w2, exec.
    rewrite (importTasks_run _ _ _ _ _ _ Hparse Htasks Hsome Hget). cbn [fst].
    apply merged_is_stored; assumption. }
  assert (Htext : JSON_stringify (VArr merged) <> EmptyString)
    by (intros Hnil; rewrite Hnil in Hround; congruence).
  assert (Hs : stored !! STORAGE_KEY = Some (JSON_stringify (VArr merged))).
  { unfold stored. rewrite lookup_insert_ne by (apply not_eq_sym, keys_differ).
    apply lookup_insert_eq. }
  assert (Hv : stored !! VERSION_KEY = Some STORAGE_VERSION)
    by apply lookup_insert_eq.
  assert (Hload : getTasks (Live quota stored) = (Live quota stored, Normal merged))
    by (apply getTasks_Live_valid with (text := JSON_stringify (VArr merged)); auto).
  rewrite Hw2.
  rewrite (importTasks_run _ _ _ _ _ _ Hparse Htasks Hsome Hload).
  replace (appended merged imported) with (@nil value)
    by (symmetry; apply appended_after_merge).
  rewrite app_nil_r.
  f_equal. rewrite saveTasks_Live_cases. cbv zeta.
  rewrite (filter_all_true _ _ Hmerged).
  rewrite (insert_id stored STORAGE_KEY) by exact Hs.
  rewrite (insert_id stored VERSION_KEY) by exact Hv.
  destruct (N.leb_spec (usage stored) quota) as [_ | Hover]; [reflexivity |].
  unfold stored in Hover. lia.
Qed.

(** Reading [status] off a valid task does not throw, so the counting
    filter is the plain one. *)
Lemma filter_eff_valid (s : string) (tasks : list value) (w : World) :
  forallb isValidTask tasks = true ->
  filter_eff (status_is s) tasks w
  = (w, Normal (List.filter (fun task => strict_eq_string (prop task "status") s) tasks)).
Proof.
  induction tasks as [| t l IH]; [reflexivity |].
  cbn [forallb]. intros Hall. apply andb_true_iff in Hall as [Ht Hl].
  apply isValidTask_iff in Ht as (props & _ & _ & _ & _ & _ & -> & _).
  assert (Hhead : status_is s (VObj props) w
                  = (w, Normal (strict_eq_string (prop (VObj props) "status") s)))
    by reflexivity.
  cbn [filter_eff List.filter]. unfold bind. rewrite Hhead, (IH Hl).
  destruct (strict_eq_string (prop (VObj props) "status") s); reflexivity.
Qed.

Lemma status_counts_add_up (tasks : list value) :
  forallb isValidTask tasks = true ->
  length (List.filter (fun task => strict_eq_string (prop task "status") "todo") tasks)
  + length (List.filter
              (fun task => strict_eq_string (prop task "status") "in-progress") tasks)
  + length (List.filter (fun task => strict_eq_string (prop task "status") "done") tasks)
  = length tasks.
Proof.
  induction tasks as [| t l IH]; [reflexivity |].
  cbn [forallb]. intros Hall. apply andb_true_iff in Hall as [Ht Hl].
  specialize (IH Hl). cbn [List.filter length].
  apply isValidTask_iff in Ht
    as (props & i & ti & d & s & c & -> & _ & _ & _ & Hs & Hin & _).
  cbn [prop]. rewrite Hs.
  destruct Hin as [-> | [-> | ->]]; cbn; lia.
Qed.

(** X10.  [getTaskStats] never throws, and the three counts it returns add
    up to the total: every task it counts has one of the three statuses. *)
Theorem getTaskStats_counts_add_up (w : World) :
  exists w' stats,
    getTaskStats w = (w', Normal stats)
    /\ todo stats + inProgress stats + done stats = total stats.
Proof.
  destruct (getTasks_normal w) as (w1 & tasks & Hget & Hall).
  unfold getTaskStats, bind. rewrite Hget.
  rewrite !(filter_eff_valid _ _ _ Hall).
  do 2 eexists. split; [reflexivity |].
  cbn [todo inProgress done total]. apply status_counts_add_up, Hall.
Qed.

(** X11.  A backup written by [exportTasks] can be read back: when the
    text parses to the document that was written, importing it into a world
    without tasks hands [saveTasks] exactly the exported tasks and reports
    their number.  A backup of no tasks is refused as "No valid tasks found
    in backup". *)
Theorem export_then_import
  (stringify_indented : value -> string) (exportDate : string)
  (w w1 : World) (tasks : list value) :
  getTasks w = (w1, Normal tasks) ->
  let text := stringify_indented (export_document exportDate tasks) in
  JSON_parse text = Some (export_document exportDate tasks) ->
  exportTasks stringify_indented exportDate w = (w1, Normal text)
  /\ (tasks = [] ->
      forall w2,
        importTasks text w2
        = (w2, Normal (import_failed "No valid tasks found in backup")))
  /\ (tasks <> [] ->
      forall w2 w2',
        getTasks w2 = (w2', Normal []) ->
        importTasks text w2
        = (exec (saveTasks tasks) w2', Normal (imported_ok (length tasks)))).
Proof.
  intros Hget text Hparse.
  assert (Hall : forallb isValidTask tasks = true).
  { destruct (getTasks_normal w) as (w' & l & Hg & Hall).
    rewrite Hget in Hg. injection Hg as _ <-. exact Hall. }
  split; [| split].
  - unfold exportTasks, bind. rewrite Hget. reflexivity.
  - intros -> w2. unfold importTasks, try_catch, bind, JSON_parse_stmt.
    rewrite Hparse. reflexivity.
  - intros Hsome w2 w2' Hload.
    assert (Happ : appended [] tasks = tasks).
    { unfold appended. rewrite (filter_all_true _ _ Hall).
      apply filter_all_true. apply forallb_forall. reflexivity. }
    rewrite (importTasks_run text (export_document exportDate tasks) tasks w2 w2' []
               Hparse eq_refl); [rewrite Happ; reflexivity | | exact Hload].
    rewrite (filter_all_true _ _ Hall). exact Hsome.
Qed.

(** X12.  A task of the declared type passes [isValidTask] exactly when its
    [createdAt] parses as a date; its id and its title may be empty. *)
Theorem typed_task_valid_iff (t : Types.Task) :
  isValidTask (Types.to_value t) = true <-> Date_parse (Types.createdAt t) <> None.
Proof.
  rewrite isValidTask_iff. unfold valid_per_spec, Types.to_value. split.
  - intros (props & i & ti & d & s & c & Heq & _ & _ & _ & _ & _ & Hc & Hdate).
    injection Heq as <-. cbn in Hc. injection Hc as <-. exact Hdate.
  - intros Hdate. do 6 eexists. split; [reflexivity |].
    cbn. repeat split; try reflexivity; [| exact Hdate].
    destruct (Types.status t); auto.
Qed.

End ImportMore.

(** * Further properties of the column, the form, the card and the board *)

Section ColumnMore.
Context `{Host}.
Import Types KanbanColumn.

Lemma step_settled (status : TaskStatus) (e : Event) (c : State) :
  settled c -> settled (step status e c).
Proof.
  unfold settled. intros (Hpos & Hover & Heff).
  destruct e as [| | | taskId taskData]; cbn [step].
  - unfold handleDragOver. destruct (isDragOver c) eqn:Ho; cbn;
      repeat split; auto.
  - unfold handleDragEnter. destruct (isDragOver c) eqn:Ho; cbn;
      repeat split; auto; lia.
  - unfold handleDragLeave.
    destruct (Z.leb_spec (dragOverCounter c - 1) 0); cbn.
    + repeat split; try lia; discriminate.
    + repeat split; try lia; auto. intros _. apply Hover. lia.
  - unfold handleDrop.
    destruct (nonempty taskId && nonempty taskData);
      [destruct (moved_to_other_column taskData status) as [[] | e] |];
      cbn; repeat split; try lia; discriminate.
Qed.

(** X13.  Whatever events reach a column that starts idle, in whatever
    order, its counter never goes below 0 (a leave without an enter is
    absorbed), a counter above 0 always goes with the highlight, and the
    [drag-over] class is never on without the highlight. *)
Theorem column_stays_settled (status : TaskStatus) (events : list Event) :
  settled (run status events initial).
Proof.
  unfold run.
  assert (Hinit : settled initial).
  { unfold settled, initial. cbn. repeat split; try lia; discriminate. }
  revert Hinit. generalize initial.
  induction events as [| e events IH]; intros c Hc; [exact Hc |].
  cbn [List.fold_left]. apply IH, step_settled, Hc.
Qed.

End ColumnMore.

Section DragDropMore.
Import Types DragDropService.

(** X14.  [getDropTargetStatus] reads back the status that a column writes
    in its [data-status] attribute, and yields a status for no other
    attribute. *)
Theorem getDropTargetStatus_reads_status_back :
  (forall status, getDropTargetStatus (Some (status_string status)) = Some status)
  /\ (forall attr status,
        getDropTargetStatus attr = Some status -> attr = Some (status_string status)).
Proof.
  split.
  - intros []; reflexivity.
  - intros [attr |] status; [| discriminate]. unfold getDropTargetStatus.
    destruct (String.eqb_spec attr "todo") as [-> | _];
      [intros [= <-]; reflexivity |].
    destruct (String.eqb_spec attr "in-progress") as [-> | _];
      [intros [= <-]; reflexivity |].
    destruct (String.eqb_spec attr "done") as [-> | _];
      [intros [= <-]; reflexivity | discriminate].
Qed.

End DragDropMore.

Section FormMore.
Import Types KanbanBoard.

(** A string that is empty or starts with a character that is not white
    space. *)
Lemma trimStart_fixed (s : string) :
  match s with
  | EmptyString => True
  | String c _ => TaskForm.is_space c = false
  end ->
  TaskForm.trimStart s = s.
Proof. destruct s as [| c s]; simpl; [reflexivity |]. intros ->. reflexivity. Qed.

Lemma reverse_involutive (s : string) : TaskForm.reverse (TaskForm.reverse s) = s.
Proof.
  unfold TaskForm.reverse.
  rewrite list_ascii_of_string_of_list_ascii, rev_involutive.
  apply string_of_list_ascii_of_string.
Qed.

(** What [trimStart] drops is white space. *)
Lemma trimStart_split (s : string) :
  exists dropped,
    list_ascii_of_string s = dropped ++ list_ascii_of_string (TaskForm.trimStart s)
    /\ Forall (fun c => TaskForm.is_space c = true) dropped.
Proof.
  induction s as [| c s (dropped & Heq & Hall)]; [exists []; split; [reflexivity | constructor] |].
  simpl. destruct (TaskForm.is_space c) eqn:Hc.
  - exists (c :: dropped). split; [simpl; f_equal; exact Heq | constructor; assumption].
  - exists []. split; [reflexivity | constructor].
Qed.

(** A trimmed string is empty or starts with a character that is not white
    space. *)
Lemma trim_head (s : string) :
  match TaskForm.trim s with
  | EmptyString => True
  | String c _ => TaskForm.is_space c = false
  end.
Proof.
  unfold TaskForm.trim.
  pose proof (trimStart_head s) as Hhead.
  destruct (TaskForm.trimStart s) as [| c a]; [exact I |].
  set (b := TaskForm.trimStart (TaskForm.reverse (String c a))).
  destruct (trimStart_split (TaskForm.reverse (String c a))) as (dropped & Heq & Hall).
  fold b in Heq. unfold TaskForm.reverse in Heq at 1.
  rewrite list_ascii_of_string_of_list_ascii in Heq. cbn [list_ascii_of_string] in Heq.
  cbn [List.rev] in Heq.
  unfold TaskForm.reverse.
  destruct (list_ascii_of_string b) as [| x lb] eqn:Hb using rev_ind.
  - exfalso. rewrite app_nil_r in Heq. subst dropped.
    rewrite Forall_forall in Hall.
    assert (Hc : TaskForm.is_space c = true)
      by (apply Hall, list_elem_of_In, in_or_app; right; left; reflexivity).
    congruence.
  - clear IHlb. rewrite app_assoc in Heq.
    apply app_inj_tail in Heq as [_ <-].
    rewrite rev_app_distr. cbn. exact Hhead.
Qed.

(** Trimming a trimmed string changes nothing. *)
Lemma trim_trim (s : string) : TaskForm.trim (TaskForm.trim s) = TaskForm.trim s.
Proof.
  pose proof (trim_head s) as Hhead.
  unfold TaskForm.trim at 1.
  rewrite (trimStart_fixed _ Hhead).
  unfold TaskForm.trim at 1. rewrite reverse_involutive.
  rewrite (trimStart_fixed (TaskForm.trimStart _)) by apply trimStart_head.
  reflexivity.
Qed.

(** X15.  A task created through the form has a title that is not empty
    and carries no white space at either end, and a description without
    white space at either end; it is appended with status [Todo], and the
    form is reset. *)
Theorem submit_creates_trimmed_task
  (fr : Fresh) (f : TaskForm.State) (b : State) :
  TaskForm.trim (TaskForm.title f) <> EmptyString ->
  exists task,
    submit fr f b
    = ({| TaskForm.title := EmptyString; TaskForm.description := EmptyString;
          TaskForm.isSubmitting := false |},
       {| tasks := tasks b ++ [task]; draggedTask := draggedTask b |})
    /\ title task = TaskForm.trim (TaskForm.title f)
    /\ title task <> EmptyString
    /\ TaskForm.trim (title task) = title task
    /\ TaskForm.trim (description task) = description task
    /\ status task = Todo.
Proof.
  intros Hne. unfold submit, TaskForm.handleSubmit.
  destruct (String.eqb_spec (TaskForm.trim (TaskForm.title f)) EmptyString);
    [contradiction |].
  eexists. split; [reflexivity |].
  cbn [title description status].
  repeat split; auto using trim_trim.
Qed.

End FormMore.

Section BoardMore.
Import Types KanbanBoard.

Lemma columnTasks_filter (column : TaskStatus) (b : State) :
  columnTasks column b
  = List.filter (fun task => status_eqb (status task) column) (tasks b).
Proof. destruct column; reflexivity. Qed.

(** X16.  The three columns share out the board: every task of the list is
    shown in the column of its status and in no other, in the order of the
    list, so that the three columns together hold the tasks of the list,
    each once. *)
Theorem columns_share_out_the_tasks (b : State) :
  Permutation (todoTasks b ++ inProgressTasks b ++ doneTasks b) (tasks b)
  /\ length (todoTasks b) + length (inProgressTasks b) + length (doneTasks b)
     = length (tasks b)
  /\ forall column task,
       In task (columnTasks column b) <-> In task (tasks b) /\ status task = column.
Proof.
  assert (Hperm : Permutation (todoTasks b ++ inProgressTasks b ++ doneTasks b) (tasks b)).
  { unfold todoTasks, inProgressTasks, doneTasks.
    induction (tasks b) as [| t l IH]; [constructor |].
    cbn [List.filter]. destruct (status t); cbn.
    - constructor. exact IH.
    - etransitivity; [symmetry; apply Permutation_middle |]. constructor. exact IH.
    - rewrite app_assoc. etransitivity; [symmetry; apply Permutation_middle |].
      constructor. rewrite <- app_assoc. exact IH. }
  split; [exact Hperm |]. split.
  - apply Permutation_length in Hperm. rewrite !length_app in Hperm. lia.
  - intros column task. rewrite columnTasks_filter, filter_In, status_eqb_eq.
    reflexivity.
Qed.

Lemma count_after_delete (taskId : string) (l : list Task) (task : Task) :
  count_occ Task_eq_dec
    (List.filter (fun t => negb (String.eqb (id t) taskId)) l) task
  = if String.eqb (id task) taskId then 0 else count_occ Task_eq_dec l task.
Proof.
  induction l as [| t l IH].
  - cbn. destruct (String.eqb (id task) taskId); reflexivity.
  - cbn [List.filter].
    destruct (String.eqb_spec (id t) taskId) as [Ht | Ht]; cbn [negb].
    + rewrite IH. destruct (String.eqb_spec (id task) taskId) as [_ | Hne];
        [reflexivity |].
      cbn [count_occ]. destruct (Task_eq_dec t task) as [-> | _];
        [contradiction | reflexivity].
    + cbn [count_occ]. rewrite IH.
      destruct (Task_eq_dec t task) as [-> | _]; [| reflexivity].
      destruct (String.eqb_spec (id task) taskId); [contradiction | reflexivity].
Qed.

(** X17.  [deleteTask] removes every task that carries the id, two of them
    if two share it, and keeps the others: the list that is left is the old
    one without the tasks of that id, in the old order and with each other
    task as many times as before, and the dragged task is untouched.  With
    no task of that id the board is unchanged, and deleting twice is deleting
    once.  Through the card, the deletion is made only when confirmed. *)
Theorem deleteTask_removes_the_id (taskId : string) (b : State) :
  tasks (deleteTask taskId b)
  = List.filter (fun task => negb (String.eqb (id task) taskId)) (tasks b)
  /\ draggedTask (deleteTask taskId b) = draggedTask b
  /\ (forall task,
        id task = taskId -> count_occ Task_eq_dec (tasks (deleteTask taskId b)) task = 0)
  /\ (forall task,
        id task <> taskId ->
        count_occ Task_eq_dec (tasks (deleteTask taskId b)) task
        = count_occ Task_eq_dec (tasks b) task)
  /\ (forall task,
        In task (tasks (deleteTask taskId b)) <-> In task (tasks b) /\ id task <> taskId)
  /\ sublist (tasks (deleteTask taskId b)) (tasks b)
  /\ ((forall task, In task (tasks b) -> id task <> taskId) ->
      deleteTask taskId b = b)
  /\ deleteTask taskId (deleteTask taskId b) = deleteTask taskId b
  /\ (forall task, deleteFromCard false task b = b)
  /\ (forall task, deleteFromCard true task b = deleteTask (id task) b).
Proof.
  assert (Hkeep : forall l,
            (forall task, In task l -> id task <> taskId) ->
            List.filter (fun task => negb (String.eqb (id task) taskId)) l = l).
  { intros l Hl. apply filter_all_true. apply forallb_forall. intros task Hin.
    apply negb_true_iff, String.eqb_neq, Hl, Hin. }
  split; [reflexivity |]. split; [reflexivity |].
  split; [| split; [| split; [| split; [| split; [| split; [| split]]]]]];
    try reflexivity.
  - intros task Hid. unfold deleteTask. cbn [tasks].
    rewrite count_after_delete, Hid, String.eqb_refl. reflexivity.
  - intros task Hid. unfold deleteTask. cbn [tasks].
    rewrite count_after_delete.
    destruct (String.eqb_spec (id task) taskId); [contradiction | reflexivity].
  - intros task. unfold deleteTask. cbn [tasks].
    rewrite filter_In, negb_true_iff, String.eqb_neq. reflexivity.
  - unfold deleteTask. cbn [tasks].
    induction (tasks b) as [| t l IH]; [constructor |].
    cbn [List.filter]. destruct (negb _); constructor; exact IH.
  - intros Hnone. destruct b as [l d]. unfold deleteTask. cbn [tasks draggedTask] in *.
    rewrite (Hkeep l Hnone). reflexivity.
  - unfold deleteTask. cbn [tasks draggedTask]. f_equal.
    apply Hkeep. intros task Hin. apply filter_In in Hin as [_ Hne].
    apply negb_true_iff, String.eqb_neq in Hne. exact Hne.
Qed.

(** X18.  [addTask] puts the new task last in the To Do column and leaves
    the two other columns and every task already on the board as they
    were. *)
Theorem addTask_lands_in_todo (fr : Fresh) (title description : string) (b : State) :
  let b' := addTask fr title description b in
  let newTask :=
    {| id := "task_" +:+ pretty (now fr) +:+ "_" +:+ suffix fr;
       Types.title := title;
       Types.description := description;
       status := Todo;
       createdAt := iso fr |} in
  tasks b' = tasks b ++ [newTask]
  /\ todoTasks b' = todoTasks b ++ [newTask]
  /\ inProgressTasks b' = inProgressTasks b
  /\ doneTasks b' = doneTasks b
  /\ draggedTask b' = draggedTask b.
Proof.
  cbv zeta. unfold todoTasks, inProgressTasks, doneTasks, addTask. cbn [tasks draggedTask].
  rewrite !List.filter_app. cbn. rewrite !app_nil_r. repeat split.
Qed.

Lemma update_other_column (taskId : string) (newStatus column : TaskStatus)
  (l : list Task) :
  column <> newStatus ->
  List.filter (fun task => status_eqb (status task) column)
    (List.map
       (fun task =>
          if String.eqb (id task) taskId
          then {| id := id task; title := title task; description := description task;
                  status := newStatus; createdAt := createdAt task |}
          else task) l)
  = List.filter (fun task => negb (String.eqb (id task) taskId))
      (List.filter (fun task => status_eqb (status task) column) l).
Proof.
  intros Hother.
  assert (Hnew : status_eqb newStatus column = false).
  { apply not_true_iff_false. rewrite status_eqb_eq. congruence. }
  induction l as [| t l IH]; [reflexivity |].
  cbn [List.map List.filter].
  destruct (String.eqb (id t) taskId) eqn:Hid.
  - cbn [status]. rewrite Hnew, IH.
    destruct (status_eqb (status t) column); [| reflexivity].
    cbn [List.filter]. rewrite Hid. reflexivity.
  - rewrite IH. destruct (status_eqb (status t) column); [| reflexivity].
    cbn [List.filter]. rewrite Hid. reflexivity.
Qed.

(** X19.  [updateTaskStatus] moves between columns: afterwards every task
    with the given id has the new status, and is therefore in the column of
    that status, and each other column shows what it showed before, less the
    tasks with that id. *)
Theorem updateTaskStatus_moves_between_columns
  (taskId : string) (newStatus : TaskStatus) (b : State) :
  let b' := updateTaskStatus taskId newStatus b in
  (forall task, In task (tasks b') -> id task = taskId -> status task = newStatus)
  /\ (forall task,
        In task (tasks b) -> id task = taskId ->
        In {| id := id task; title := title task; description := description task;
              status := newStatus; createdAt := createdAt task |}
           (columnTasks newStatus b'))
  /\ (forall column,
        column <> newStatus ->
        columnTasks column b'
        = List.filter (fun task => negb (String.eqb (id task) taskId))
            (columnTasks column b)).
Proof.
  cbv zeta. split; [| split].
  - intros task Hin Hid. unfold updateTaskStatus in Hin. cbn [tasks] in Hin.
    apply in_map_iff in Hin as (t & Heq & _).
    destruct (String.eqb_spec (id t) taskId) as [_ | Hne].
    + subst task. reflexivity.
    + subst task. contradiction.
  - intros task Hin Hid. rewrite columnTasks_filter. apply filter_In. split.
    + unfold updateTaskStatus. cbn [tasks]. apply in_map_iff. exists task.
      split; [| exact Hin]. rewrite <- Hid, String.eqb_refl. reflexivity.
    + cbn [status]. apply status_eqb_eq. reflexivity.
  - intros column Hother. rewrite !columnTasks_filter.
    unfold updateTaskStatus. cbn [tasks]. apply update_other_column, Hother.
Qed.

Lemma nonempty_empty : KanbanColumn.nonempty EmptyString = false.
Proof. reflexivity. Qed.

(** X20.  A whole drag of a card whose task has a non-empty id, on a host
    whose JSON reader gives back the task that its writer wrote: dropped on
    the column of its own status nothing is asked of the board; dropped on
    another column the board is asked once to give the task that column's
    status, and does so.  Either way the column ends idle and no task is
    left being dragged. *)
Theorem drag_from_card_to_column `{Host}
  (task : Task) (column : TaskStatus) (c : KanbanColumn.State) (b : State) :
  id task <> EmptyString ->
  JSON_parse EmptyString = None ->
  JSON_parse (JSON_stringify (to_value task)) = Some (to_value task) ->
  (status task = column ->
   dragAndDrop task column c b
   = (KanbanColumn.initial, {| tasks := tasks b; draggedTask := None |}, []))
  /\ (status task <> column ->
      dragAndDrop task column c b
      = (KanbanColumn.initial,
         {| tasks := tasks (updateTaskStatus (id task) column b); draggedTask := None |},
         [(id task, column)])).
Proof.
  intros Hid Hempty Hround.
  assert (Htext : JSON_stringify (to_value task) <> EmptyString)
    by (intros Hnil; rewrite Hnil in Hround; congruence).
  assert (Hcol : forall same,
            status_eqb (status task) column = same ->
            KanbanColumn.handleDrop column (id task) (JSON_stringify (to_value task)) c
            = (KanbanColumn.initial, if same then [] else [column])).
  { intros same Hsame. unfold KanbanColumn.handleDrop, KanbanColumn.moved_to_other_column.
    rewrite (nonempty_true _ Hid), (nonempty_true _ Htext), Hround.
    cbn [andb to_value prop lookup_prop strict_eq_string].
    change (String.eqb "id" "status") with false.
    change (String.eqb "title" "status") with false.
    change (String.eqb "description" "status") with false.
    change (String.eqb "status" "status") with true. cbv iota.
    change (strict_eq_string (VStr (status_string (status task))) (status_string column))
      with (status_eqb (status task) column).
    rewrite Hsame. destruct same; reflexivity. }
  unfold dragAndDrop, TaskCard.handleDragStart, drop.
  cbn [TaskCard.text_plain TaskCard.application_json].
  split.
  - intros Hsame. apply status_eqb_eq in Hsame. rewrite (Hcol true Hsame).
    reflexivity.
  - intros Hother.
    assert (Hdiff : status_eqb (status task) column = false)
      by (apply not_true_iff_false; rewrite status_eqb_eq; exact Hother).
    rewrite (Hcol false Hdiff). cbn [List.fold_left].
    unfold handleDrop, handleDragStart. cbn [draggedTask tasks].
    rewrite Hdiff. reflexivity.
Qed.

(** X21.  A task whose id is the empty string cannot be moved by dragging:
    the column's handler wants a non-empty id, so whatever the column, the
    drop asks nothing of the board and the list of tasks is unchanged. *)
Theorem task_without_id_cannot_be_dropped `{Host}
  (task : Task) (column : TaskStatus) (c : KanbanColumn.State) (b : State) :
  id task = EmptyString ->
  dragAndDrop task column c b
  = (KanbanColumn.initial, {| tasks := tasks b; draggedTask := None |}, []).
Proof.
  intros Hid. unfold dragAndDrop, TaskCard.handleDragStart, drop.
  cbn [TaskCard.text_plain TaskCard.application_json].
  unfold KanbanColumn.handleDrop. rewrite Hid, nonempty_empty. reflexivity.
Qed.

End BoardMore.

Section BoardStore.
Context `{Host}.
Import Types KanbanBoard StorageService.

Lemma to_value_valid (t : Task) :
  Date_parse (createdAt t) <> None -> isValidTask (to_value t) = true.
Proof.
  intros Hdate. apply isValidTask_iff. unfold valid_per_spec, to_value.
  do 6 eexists. split; [reflexivity |].
  cbn. repeat split; try reflexivity; [| exact Hdate].
  destruct (status t); auto.
Qed.

Lemma load_after_clear (w : World) :
  getTasks (exec clearTasks w) = (exec clearTasks w, Normal []).
Proof.
  destruct w as [| | quota items]; [reflexivity .. |].
  unfold exec. rewrite clearTasks_Live. cbn [fst].
  rewrite getTasks_Live_unfold. cbv zeta.
  rewrite lookup_delete_eq.
  rewrite lookup_delete_ne by (apply not_eq_sym, keys_differ).
  rewrite lookup_delete_eq. reflexivity.
Qed.

(** X22.  What the board saves is what a reload gets: when the board has
    loaded, the store is available and takes the two writes, every task's
    [createdAt] parses, and the host's JSON reader gives back the array
    written, the save effect followed by a load returns the board's tasks,
    all of them, in their order.  While the board is loading, or with the
    store unavailable, the effect writes nothing. *)
Theorem board_save_then_load
  (b : State) (quota : N) (items : gmap string string) :
  let values := List.map to_value (tasks b) in
  Forall (fun task => Date_parse (createdAt task) <> None) (tasks b) ->
  JSON_parse EmptyString = None ->
  JSON_parse (JSON_stringify (VArr values)) = Some (VArr values) ->
  (usage (<[STORAGE_KEY := JSON_stringify (VArr values)]> items) <= quota)%N ->
  (usage (<[VERSION_KEY := STORAGE_VERSION]>
            (<[STORAGE_KEY := JSON_stringify (VArr values)]> items)) <= quota)%N ->
  getTasks (exec (saveEffect false true b) (Live quota items))
  = (Live quota
       (<[VERSION_KEY := STORAGE_VERSION]>
          (<[STORAGE_KEY := JSON_stringify (VArr values)]> items)),
     Normal values)
  /\ (forall available w, saveEffect true available b w = (w, Normal tt))
  /\ (forall loading w, saveEffect loading false b w = (w, Normal tt)).
Proof.
  intros values Hdates Hempty Hround Hfit1 Hfit2.
  assert (Hall : forallb isValidTask values = true).
  { apply forallb_forall. intros v Hin. apply in_map_iff in Hin as (t & <- & Hin).
    apply to_value_valid. rewrite Forall_forall in Hdates.
    apply Hdates, list_elem_of_In, Hin. }
  assert (Hsame : List.filter isValidTask values = values)
    by (apply filter_all_true; exact Hall).
  split; [| split; [reflexivity | intros []; reflexivity]].
  assert (Hsave : exec (saveEffect false true b) (Live quota items)
                  = Live quota
                      (<[VERSION_KEY := STORAGE_VERSION]>
                         (<[STORAGE_KEY := JSON_stringify (VArr values)]> items))).
  { unfold exec, saveEffect, try_catch. cbn [negb andb]. fold values.
    rewrite saveTasks_Live; unfold saved; rewrite Hsame; auto. }
  rewrite Hsave.
  apply getTasks_Live_valid with (text := JSON_stringify (VArr values)); auto.
  - apply lookup_insert_eq.
  - rewrite lookup_insert_ne by (apply not_eq_sym, keys_differ).
    apply lookup_insert_eq.
  - intros Hnil. rewrite Hnil in Hround. congruence.
Qed.

(** X23.  A confirmed "Clear All" empties the board and leaves a store from
    which a load returns nothing; a declined one changes neither the board
    nor the world. *)
Theorem clearAllTasks_clears_board_and_store (b : State) (w : World) :
  clearAllTasks false b w = (w, Normal b)
  /\ exists w' b',
       clearAllTasks true b w = (w', Normal b')
       /\ tasks b' = []
       /\ getTasks w' = (w', Normal [])
       /\ peek STORAGE_KEY w' = None
       /\ peek VERSION_KEY w' = None.
Proof.
  split; [reflexivity |].
  destruct (clearTasks_normal w) as [w' Hclear].
  exists w', {| tasks := []; draggedTask := draggedTask b |}.
  assert (Hw : w' = exec clearTasks w) by (unfold exec; rewrite Hclear; reflexivity).
  split; [| split; [reflexivity | split]].
  - unfold clearAllTasks, bind. rewrite Hclear. reflexivity.
  - rewrite Hw. apply load_after_clear.
  - rewrite Hw. destruct w as [| | quota items]; [repeat split .. |].
    unfold exec. rewrite clearTasks_Live. cbn [fst peek]. split.
    + rewrite lookup_delete_ne by (apply not_eq_sym, keys_differ).
      apply lookup_delete_eq.
    + apply lookup_delete_eq.
Qed.

End BoardStore.

(** * The further properties on the sample host *)

Section MoreSamples.
Import StorageService Samples Types KanbanBoard.
#[local] Existing Instance SampleHost.host.

Lemma getTasks_heals_corrupt_store_witness :
  corrupt_items !! STORAGE_KEY = Some "{oops"
  /\ getTasks (Live 5242880 corrupt_items)
     = (Live 5242880 (delete VERSION_KEY (delete STORAGE_KEY corrupt_items)), Normal []).
Proof.
  split; [reflexivity |].
  apply (getTasks_heals_corrupt_store 5242880 corrupt_items "{oops");
    [reflexivity | discriminate | left; vm_compute; reflexivity].
Defined.

Lemma getTasks_rewrites_cleaned_store_witness :
  List.filter isValidTask [to_value task1; VNum 42; to_value task2]
  = [to_value task1; to_value task2]
  /\ getTasks (Live 5242880 noisy_items)
     = (Live 5242880 (saved [to_value task1; VNum 42; to_value task2] noisy_items),
        Normal (List.filter isValidTask [to_value task1; VNum 42; to_value task2])).
Proof.
  split; [vm_compute; reflexivity |].
  apply (getTasks_rewrites_cleaned_store 5242880 noisy_items text_with_noise
           [to_value task1; VNum 42; to_value task2]).
  - reflexivity.
  - reflexivity.
  - discriminate.
  - vm_compute. reflexivity.
  - exists (VNum 42). split; [right; left; reflexivity | reflexivity].
  - vm_compute. discriminate.
  - vm_compute. discriminate.
Defined.

Lemma getTasks_twice_witness :
  getTasks (exec getTasks (Live 5242880 noisy_items))
  = (exec getTasks (Live 5242880 noisy_items), Normal [to_value task1; to_value task2]).
Proof.
  apply (getTasks_twice (Live 5242880 noisy_items)).
  - vm_compute. reflexivity.
  - reflexivity.
  - vm_compute. reflexivity.
Defined.

Lemma service_touches_its_two_keys_only_witness :
  peek "theme" (Live 5242880 noisy_items) = Some "dark"
  /\ peek "theme" (exec (importTasks backup_mixed) (Live 5242880 noisy_items))
     = peek "theme" (Live 5242880 noisy_items)
  /\ peek "theme" (exec clearTasks (Live 5242880 noisy_items))
     = peek "theme" (Live 5242880 noisy_items).
Proof.
  split; [reflexivity |].
  destruct (service_touches_its_two_keys_only [] backup_mixed
              (Live 5242880 noisy_items) "theme")
    as ((_ & Hclear) & _ & _ & (_ & Himport)); [discriminate | discriminate |].
  split; [exact Himport | exact Hclear].
Defined.

Lemma importTasks_rejects_other_shapes_witness :
  importTasks "null" empty_store
  = (empty_store, Normal (import_failed "Failed to parse backup file"))
  /\ importTasks "[1,2]" empty_store
     = (empty_store, Normal (import_failed "Invalid backup format")).
Proof.
  split.
  - apply (proj1 (importTasks_rejects_other_shapes "null" empty_store)).
    vm_compute. reflexivity.
  - apply (proj2 (importTasks_rejects_other_shapes "[1,2]" empty_store)
             (VArr [VNum 1; VNum 2]));
      [vm_compute; reflexivity | discriminate | discriminate | reflexivity].
Defined.

Lemma importTasks_again_adds_nothing_witness :
  importTasks backup_mixed (exec (importTasks backup_mixed) (Live 5242880 task1_items))
  = (exec (importTasks backup_mixed) (Live 5242880 task1_items),
     Normal {| success := true; message := "Successfully imported 0 tasks";
               tasksImported := 0 |}).
Proof.
  apply (importTasks_again_adds_nothing backup_mixed
           (VObj [("tasks", VArr [to_value task1'; to_value task2])])
           [to_value task1'; to_value task2]
           (Live 5242880 task1_items) 5242880 task1_items [to_value task1]).
  - vm_compute. reflexivity.
  - reflexivity.
  - exists (to_value task2). split; [right; left; reflexivity | vm_compute; reflexivity].
  - vm_compute. reflexivity.
  - reflexivity.
  - vm_compute. reflexivity.
  - vm_compute. discriminate.
  - vm_compute. discriminate.
Defined.

Lemma export_then_import_witness :
  importTasks
    (SampleHost.stringify_indented
       (export_document "2024-05-01T00:00:00.000Z" [to_value task1]))
    empty_store
  = (exec (saveTasks [to_value task1]) empty_store, Normal (imported_ok 1)).
Proof.
  refine (proj2 (proj2 (export_then_import SampleHost.stringify_indented
                          "2024-05-01T00:00:00.000Z"
                          (Live 5242880 task1_items) (Live 5242880 task1_items)
                          [to_value task1] _ _))
            _ empty_store empty_store _).
  - vm_compute. reflexivity.
  - vm_compute. reflexivity.
  - discriminate.
  - vm_compute. reflexivity.
Defined.

Lemma submit_creates_trimmed_task_witness :
  exists task,
    submit sample_fresh
      {| TaskForm.title := "  Buy milk "; TaskForm.description := " two litres";
         TaskForm.isSubmitting := false |}
      empty_board
    = ({| TaskForm.title := EmptyString; TaskForm.description := EmptyString;
          TaskForm.isSubmitting := false |},
       {| tasks := tasks empty_board ++ [task]; draggedTask := draggedTask empty_board |})
    /\ title task = "Buy milk"
    /\ description task = "two litres".
Proof.
  destruct (submit_creates_trimmed_task sample_fresh
              {| TaskForm.title := "  Buy milk "; TaskForm.description := " two litres";
                 TaskForm.isSubmitting := false |}
              empty_board)
    as (task & Hsubmit & Htitle & _);
    [vm_compute; discriminate |].
  exists task. split; [exact Hsubmit |].
  vm_compute in Hsubmit. injection Hsubmit as <-. split; reflexivity.
Defined.

Lemma drag_from_card_to_column_witness :
  dragAndDrop task1 Done KanbanColumn.initial sample_board
  = (KanbanColumn.initial,
     {| tasks := tasks (updateTaskStatus "1" Done sample_board); draggedTask := None |},
     [("1", Done)])
  /\ dragAndDrop task1 Todo KanbanColumn.initial sample_board
     = (KanbanColumn.initial, {| tasks := tasks sample_board; draggedTask := None |}, []).
Proof.
  assert (Hround : JSON_parse (JSON_stringify (to_value task1)) = Some (to_value task1))
    by (vm_compute; reflexivity).
  split.
  - apply (proj2 (drag_from_card_to_column task1 Done KanbanColumn.initial sample_board
                    ltac:(discriminate) eq_refl Hround)).
    discriminate.
  - apply (proj1 (drag_from_card_to_column task1 Todo KanbanColumn.initial sample_board
                    ltac:(discriminate) eq_refl Hround)).
    reflexivity.
Defined.

Lemma task_without_id_cannot_be_dropped_witness :
  isValidTask (to_value task_without_id) = true
  /\ dragAndDrop task_without_id Done KanbanColumn.initial
       {| tasks := [task_without_id]; draggedTask := None |}
     = (KanbanColumn.initial,
        {| tasks := [task_without_id]; draggedTask := None |}, []).
Proof.
  split; [vm_compute; reflexivity |].
  apply (task_without_id_cannot_be_dropped task_without_id Done KanbanColumn.initial
           {| tasks := [task_without_id]; draggedTask := None |}).
  reflexivity.
Defined.

Lemma deleteTask_removes_the_id_witness :
  tasks (deleteTask "1" {| tasks := [task2; task2; task1]; draggedTask := Some task2 |})
  = [task2; task2]
  /\ draggedTask
       (deleteTask "1" {| tasks := [task2; task2; task1]; draggedTask := Some task2 |})
     = Some task2.
Proof.
  destruct (deleteTask_removes_the_id "1"
              {| tasks := [task2; task2; task1]; draggedTask := Some task2 |})
    as (Htasks & Hdragged & _).
  split; [rewrite Htasks; reflexivity | exact Hdragged].
Defined.

Lemma board_save_then_load_witness :
  result getTasks (exec (saveEffect false true sample_board) empty_store)
  = Normal [to_value task1; to_value task2].
Proof.
  refine (f_equal snd
            (proj1 (board_save_then_load sample_board 5242880 ∅ _ _ _ _ _))).
  - repeat constructor; vm_compute; discriminate.
  - reflexivity.
  - vm_compute. reflexivity.
  - vm_compute. discriminate.
  - vm_compute. discriminate.
Defined.

End MoreSamples.

Section Balance.
Import Types KanbanColumn StorageService Samples.

(** X24.  Enters and leaves balance: after [n + 1] drag-enter events on an
    idle column, any [k] drag-leave events with [k] at most [n] leave the
    column highlighted ([isDragOver]) with the counter at [n + 1 - k], and
    [n + 1] drag-leave events clear the highlight and put the counter back
    to 0. *)
Theorem enters_and_leaves_balance (n k : nat) :
  k <= n ->
  (isDragOver (Nat.iter k handleDragLeave (Nat.iter (S n) handleDragEnter initial))
   = true
   /\ dragOverCounter
        (Nat.iter k handleDragLeave (Nat.iter (S n) handleDragEnter initial))
      = Z.of_nat (S n - k))
  /\ (isDragOver
        (Nat.iter (S n) handleDragLeave (Nat.iter (S n) handleDragEnter initial))
      = false
      /\ dragOverCounter
           (Nat.iter (S n) handleDragLeave (Nat.iter (S n) handleDragEnter initial))
         = 0%Z).
Proof.
  intros Hk. split; [apply leaves_but_last; exact Hk | apply last_leave_clears].
Qed.

Lemma enters_and_leaves_balance_witness :
  (isDragOver (Nat.iter 2 handleDragLeave (Nat.iter 4 handleDragEnter initial)) = true
   /\ dragOverCounter (Nat.iter 2 handleDragLeave (Nat.iter 4 handleDragEnter initial))
      = Z.of_nat (4 - 2))
  /\ (isDragOver (Nat.iter 4 handleDragLeave (Nat.iter 4 handleDragEnter initial))
      = false
      /\ dragOverCounter
           (Nat.iter 4 handleDragLeave (Nat.iter 4 handleDragEnter initial))
         = 0%Z).
Proof. apply (enters_and_leaves_balance 3 2). lia. Defined.

(** X25.  A save that the store has no room for is dropped whole: nothing
    is thrown to the caller and the store keeps every entry it had, so what
    was saved before is still there to load. *)
Theorem saveTasks_without_room_changes_nothing `{Host}
  (tasks : list value) (quota : N) (items : gmap string string) :
  (quota
   < usage (<[STORAGE_KEY := JSON_stringify (VArr (List.filter isValidTask tasks))]> items))%N ->
  saveTasks tasks (Live quota items) = (Live quota items, Normal tt)
  /\ getTasks (exec (saveTasks tasks) (Live quota items)) = getTasks (Live quota items).
Proof.
  intros Hover.
  assert (Hsave : saveTasks tasks (Live quota items) = (Live quota items, Normal tt)).
  { unfold saveTasks, try_catch, bind, window_undefined.
    rewrite (setItem_overflows _ _ _ _ Hover). reflexivity. }
  split; [exact Hsave |]. unfold exec. rewrite Hsave. reflexivity.
Qed.

Lemma saveTasks_without_room_changes_nothing_witness :
  saveTasks (H := SampleHost.host) [Types.to_value task1; Types.to_value task2]
    (Live 200 task1_items)
  = (Live 200 task1_items, Normal tt)
  /\ result (getTasks (H := SampleHost.host))
       (exec (saveTasks (H := SampleHost.host)
                [Types.to_value task1; Types.to_value task2])
          (Live 200 task1_items))
     = Normal [Types.to_value task1].
Proof.
  destruct (saveTasks_without_room_changes_nothing (H := SampleHost.host)
              [Types.to_value task1; Types.to_value task2] 200 task1_items)
    as [Hsave Hload]; [vm_compute; reflexivity |].
  split; [exact Hsave |].
  unfold result. rewrite Hload. vm_compute. reflexivity.
Defined.

End Balance.
